(** * optimum.tir.lang: targets, compiler flags and configurations

    A shallow embedding of [src/optimum/tir/lang.py]: the [TirTarget]
    enumeration, the flag class [iree_cl], and the builder [TirConfig] with its
    set of flags.  Python values, exceptions, object identity and the file
    written by [save_ir] are modelled explicitly. *)

From Stdlib Require Import ZArith List String Ascii Bool Lia Permutation Sorted.
From Stdlib Require Import DecimalString.
Import ListNotations.
Local Open Scope string_scope.
Local Open Scope Z_scope.
Set Warnings "-register-all".

(** ** Python values and the builtins the module calls *)

Module Py.

(** The values a flag may carry ([value: Optional[Any]]).  A string is a
    sequence of code points below 256; floats and user objects are left out. *)
Inductive value : Type :=
| None_
| Bool_ (b : bool)
| Int_ (z : Z)
| Str_ (s : string)
| Tuple_ (items : list value).

(** Exceptions raised by the module or by the builtins it calls. *)
Inductive exn : Type :=
| ValueError (msg : string)
| TypeError
| AttributeError (attribute : string)
| OSError (path : string).

Inductive result (A : Type) : Type :=
| Ok (a : A)
| Raise (e : exn).
Arguments Ok {A} a.
Arguments Raise {A} e.

(** [bool(v)]: the test of [if v:]. *)
Definition truthy (v : value) : bool :=
  match v with
  | None_ => false
  | Bool_ b => b
  | Int_ z => negb (z =? 0)
  | Str_ s => negb (String.eqb s "")
  | Tuple_ items => match items with [] => false | _ :: _ => true end
  end.

(** [str(z)] for an integer. *)
Definition str_of_int (z : Z) : string := NilZero.string_of_int (Z.to_int z).

Definition hex_digit (n : nat) : ascii :=
  match n with
  | 0 => "0" | 1 => "1" | 2 => "2" | 3 => "3" | 4 => "4" | 5 => "5" | 6 => "6"
  | 7 => "7" | 8 => "8" | 9 => "9" | 10 => "a" | 11 => "b" | 12 => "c"
  | 13 => "d" | 14 => "e" | _ => "f"
  end%nat%char.

(** A code point below 256 that [repr] writes as an escape [\xhh]: the control
    characters, DEL, the C1 block, the no-break space and the soft hyphen. *)
Definition unprintable (n : nat) : bool :=
  ((n <? 32) || ((127 <=? n) && (n <=? 160)) || (n =? 173))%nat.

Definition contains_char (c : ascii) (s : string) : bool :=
  existsb (Ascii.eqb c) (list_ascii_of_string s).

(** [repr] of a string picks the single quote unless the text holds one and
    holds no double quote. *)
Definition dquote : ascii := ascii_of_nat 34.
Definition squote : ascii := ascii_of_nat 39.

Definition repr_quote (s : string) : ascii :=
  if contains_char squote s && negb (contains_char dquote s)
  then dquote else squote.

Definition repr_char (quote c : ascii) : string :=
  let n := nat_of_ascii c in
  if Ascii.eqb c quote || Ascii.eqb c "\"%char then String "\" (String c "")
  else if (n =? 9)%nat then "\t"
  else if (n =? 10)%nat then "\n"
  else if (n =? 13)%nat then "\r"
  else if unprintable n
       then String "\" (String "x" (String (hex_digit (n / 16))
                                       (String (hex_digit (n mod 16)) "")))
  else String c "".

Definition repr_str (s : string) : string :=
  let q := repr_quote s in
  String q (String.concat "" (map (repr_char q) (list_ascii_of_string s)))
  ++ String q "".

(** [repr(v)]. *)
Fixpoint repr (v : value) : string :=
  match v with
  | None_ => "None"
  | Bool_ true => "True"
  | Bool_ false => "False"
  | Int_ z => str_of_int z
  | Str_ s => repr_str s
  | Tuple_ items =>
      match items with
      | [] => "()"
      | [x] => "(" ++ repr x ++ ",)"
      | _ => "(" ++ String.concat ", " (map repr items) ++ ")"
      end
  end.

(** [str(v)], also what an f-string field [{v}] prints. *)
Definition str (v : value) : string :=
  match v with
  | Str_ s => s
  | _ => repr v
  end.

(** The characters [int] strips around a numeral. *)
Definition is_space (c : ascii) : bool :=
  let n := nat_of_ascii c in
  (((9 <=? n) && (n <=? 13)) || (n =? 32) || (n =? 133) || (n =? 160))%nat.

Definition digit_of (c : ascii) : option Z :=
  let n := nat_of_ascii c in
  if ((48 <=? n) && (n <=? 57))%nat then Some (Z.of_nat (n - 48)) else None.

Fixpoint lstrip (l : list ascii) : list ascii :=
  match l with
  | c :: l' => if is_space c then lstrip l' else l
  | [] => []
  end.

Definition strip (l : list ascii) : list ascii := rev (lstrip (rev (lstrip l))).

(** Digits with single underscores between them; [after_digit] tells whether
    the previous character was a digit. *)
Fixpoint digits (l : list ascii) (acc : Z) (after_digit : bool) : option Z :=
  match l with
  | [] => if after_digit then Some acc else None
  | c :: l' =>
      match digit_of c with
      | Some d => digits l' (10 * acc + d) true
      | None =>
          if Ascii.eqb c "_"%char && after_digit
          then match l' with
               | c' :: _ => match digit_of c' with
                            | Some _ => digits l' acc false
                            | None => None
                            end
               | [] => None
               end
          else None
      end
  end.

Definition int_of_str (s : string) : option Z :=
  match strip (list_ascii_of_string s) with
  | [] => None
  | c :: l =>
      if Ascii.eqb c "-"%char then option_map Z.opp (digits l 0 false)
      else if Ascii.eqb c "+"%char then digits l 0 false
      else digits (c :: l) 0 false
  end.

(** [int(v)].  The message of a text that is no numeral shows the first 200
    characters of its [repr]. *)
Definition int (v : value) : result Z :=
  match v with
  | Int_ z => Ok z
  | Bool_ b => Ok (if b then 1 else 0)
  | Str_ s =>
      match int_of_str s with
      | Some z => Ok z
      | None =>
          Raise (ValueError ("invalid literal for int() with base 10: "
                             ++ String.substring 0 200 (repr_str s)))
      end
  | None_ | Tuple_ _ => Raise TypeError
  end.

(** [s.replace(old, new)] for a pattern [old] that is not empty: occurrences
    are replaced left to right and do not overlap.  [skip] counts the
    characters of an occurrence still to be dropped. *)
Fixpoint replace_from (old new s : string) (skip : nat) : string :=
  match s with
  | EmptyString => EmptyString
  | String c s' =>
      match skip with
      | S k => replace_from old new s' k
      | O =>
          if String.prefix old s
          then new ++ replace_from old new s' (Nat.pred (String.length old))
          else String c (replace_from old new s' O)
      end
  end.

(** With the empty pattern, [new] goes before every character and at the end. *)
Fixpoint interleave (new s : string) : string :=
  match s with
  | EmptyString => new
  | String c s' => new ++ String c (interleave new s')
  end.

Definition replace (s old new : string) : string :=
  match old with
  | EmptyString => interleave new s
  | String _ _ => replace_from old new s O
  end.

(** [sorted(l, key=key)]: a stable sort on an integer key.  An element goes
    before the first element of the sorted rest whose key is not smaller, so
    equal keys keep their order in [l]. *)
Section Sorted.
Context {A : Type} (key : A -> Z).

Fixpoint insert_by (x : A) (l : list A) : list A :=
  match l with
  | [] => [x]
  | y :: l' => if key x <=? key y then x :: l else y :: insert_by x l'
  end.

Definition sorted (l : list A) : list A := fold_right insert_by [] l.
End Sorted.

End Py.

(** ** The interpreter state: object identities and files *)

Record world : Type := mkWorld {
  next_oid : nat;                      (* identity of the next object created *)
  files : string -> option string;     (* contents of the files that exist *)
  writable : string -> bool            (* paths that open(path, w) accepts *)
}.

(** Computations that read and change the world and may raise. *)
Definition M (A : Type) : Type := world -> Py.result A * world.

Definition ret {A} (a : A) : M A := fun w => (Py.Ok a, w).
Definition raise {A} (e : Py.exn) : M A := fun w => (Py.Raise e, w).
Definition bind {A B} (m : M A) (k : A -> M B) : M B :=
  fun w => match m w with
           | (Py.Ok a, w') => k a w'
           | (Py.Raise e, w') => (Py.Raise e, w')
           end.
Definition lift {A} (r : Py.result A) : M A := fun w => (r, w).

Notation "x <- m ;; k" := (bind m (fun x => k))
  (at level 61, m at next level, right associativity).

(** Creating an object hands out a new identity. *)
Definition new_object : M nat :=
  fun w => (Py.Ok (next_oid w),
            mkWorld (S (next_oid w)) (files w) (writable w)).

(** [with open(path, w) as f: f.write(text)]. *)
Definition write_file (path text : string) : M unit :=
  fun w =>
    if writable w path
    then (Py.Ok tt,
          mkWorld (next_oid w)
                  (fun p => if String.eqb p path then Some text else files w p)
                  (writable w))
    else (Py.Raise (Py.OSError path), w).

(** ** class TirTarget(str, Enum) *)

Module TirTarget.

Inductive t : Type :=
| INTERPRETED_CPU
| COMPILED_CPU
| COMPILED_GPU
| COMPILED_CUDA
| COMPILED_ROCM.

(** The member's value, a string. *)
Definition value (self : t) : string :=
  match self with
  | INTERPRETED_CPU => "vmvx"
  | COMPILED_CPU => "llvm-cpu"
  | COMPILED_GPU => "vulkan"
  | COMPILED_CUDA => "cuda"
  | COMPILED_ROCM => "rocm"
  end.

Definition name (self : t) : string :=
  match self with
  | INTERPRETED_CPU => "INTERPRETED_CPU"
  | COMPILED_CPU => "COMPILED_CPU"
  | COMPILED_GPU => "COMPILED_GPU"
  | COMPILED_CUDA => "COMPILED_CUDA"
  | COMPILED_ROCM => "COMPILED_ROCM"
  end.

(** [self == other] compares the values, which differ from member to member. *)
Definition eqb (a b : t) : bool := String.eqb (value a) (value b).

(** How an f-string prints a member of an enumeration mixed with [str]: its
    value up to Python 3.10, [Class.MEMBER] from Python 3.11 on. *)
Inductive enum_format : Type := FormatValue | FormatName.

Definition format (py : enum_format) (self : t) : string :=
  match py with
  | FormatValue => value self
  | FormatName => "TirTarget." ++ name self
  end.

Definition to_tf_compiler_value (py : enum_format) (self : t) : Py.result string :=
  if eqb self INTERPRETED_CPU then Py.Ok "iree_vmvx"
  else if eqb self COMPILED_CPU then Py.Ok "iree_llvmcpu"
  else if eqb self COMPILED_GPU then Py.Ok "iree_vulkan"
  else Py.Raise (Py.ValueError
         ("Target " ++ format py self ++ " is not compatible with tf compiler.")).

Definition to_driver (self : t) : string :=
  if eqb self COMPILED_CUDA then "cuda"
  else if eqb self COMPILED_ROCM then "rocm"
  else if eqb self COMPILED_GPU then "vulkan"
  else "local-task".

End TirTarget.

(** ** class iree_cl *)

Module iree_cl.

(** An instance: its identity and its three slots. *)
Record t : Type := mk {
  oid : nat;
  _position : Z;
  _id : string;
  _value : Py.value
}.

(** [iree_cl(position, id, value)]; [value] defaults to [None]. *)
Definition __init__ (position : Z) (id : string) (value : Py.value) : M t :=
  o <- new_object ;;
  ret (mk o position id value).

Definition from_sequence (parts : list Py.value) : M t :=
  match parts with
  | [p; i] =>
      position <- lift (Py.int p) ;;
      __init__ position (Py.str i) Py.None_
  | [p; i; v] =>
      position <- lift (Py.int p) ;;
      __init__ position (Py.str i) v
  | _ =>
      raise (Py.ValueError
        ("Unable to create iree_cl from "
         ++ Py.str_of_int (Z.of_nat (List.length parts))
         ++ " only pair and triplet are supported."))
  end.

(** The properties [id], [position] and [value] read the slots. *)
Definition id (self : t) : string := _id self.
Definition position (self : t) : Z := _position self.
Definition value (self : t) : Py.value := _value self.

(** [__hash__] is [hash(self._id)], for a string hash [str_hash]. *)
Definition __hash__ (str_hash : string -> Z) (self : t) : Z := str_hash (_id self).

(** The class defines no [__eq__]: [a == b] is [a is b]. *)
Definition __eq__ (a b : t) : bool := Nat.eqb (oid a) (oid b).

Definition __str__ (self : t) : string :=
  if Py.truthy (_value self)
  then id self ++ "=" ++ Py.str (value self)
  else id self.

Definition __repr__ (self : t) : string :=
  __str__ self ++ "@" ++ Py.str_of_int (position self).

End iree_cl.

(** ** A Python set of flags *)

Module PySet.

(** The members, in the order they were added. *)
Definition t : Type := list iree_cl.t.

(** Membership compares with [__eq__], here the identity of the objects. *)
Definition contains (x : iree_cl.t) (s : t) : bool :=
  existsb (fun y => iree_cl.__eq__ y x) s.

(** The lookup of the hash table: a member with the same hash that is the
    same object or equal to it. *)
Definition lookup (str_hash : string -> Z) (x : iree_cl.t) (s : t) : bool :=
  existsb (fun y => (iree_cl.__hash__ str_hash y =? iree_cl.__hash__ str_hash x)
                    && (Nat.eqb (iree_cl.oid y) (iree_cl.oid x)
                        || iree_cl.__eq__ y x)) s.

(** [s.add(x)] leaves the set as it is when it holds a member equal to [x]. *)
Definition add (x : iree_cl.t) (s : t) : t :=
  if contains x s then s else (s ++ [x])%list.

(** [set(iterable)]. *)
Definition of_list (l : list iree_cl.t) : t :=
  fold_left (fun s x => add x s) l [].

(** The order in which a set hands out its members depends on their hashes,
    which change from one run of the interpreter to the next.  An iteration
    order maps the members to some arrangement of them. *)
Definition order : Type := t -> list iree_cl.t.

Definition iteration_order (it : order) : Prop :=
  forall s : t, Permutation (it s) s.

(** The arrangement in which members come out as they went in. *)
Definition insertion_order : order := fun s => s.

End PySet.

(** ** class TirConfig *)

Fixpoint mapM {A B : Type} (f : A -> M B) (l : list A) : M (list B) :=
  match l with
  | [] => ret []
  | x :: l' => y <- f x ;; ys <- mapM f l' ;; ret (y :: ys)
  end.

(** [enumerate(l)], counting from [start]. *)
Fixpoint enumerate_from {A : Type} (start : Z) (l : list A) : list (Z * A) :=
  match l with
  | [] => []
  | x :: l' => (start, x) :: enumerate_from (start + 1) l'
  end.

Definition enumerate {A : Type} (l : list A) : list (Z * A) := enumerate_from 0 l.

Module TirConfig.

(** The two slots; [_mlir_output_path] is [None] until it is assigned. *)
Record t : Type := mk {
  _flags : PySet.t;
  _mlir_output_path : option string
}.

(** [f] is a pair (index, entry) of [enumerate]: [(f[0], ) + f[1:]] is the
    tuple of its index and its entry. *)
Definition parse_flags (flags : list Py.value) : M PySet.t :=
  objs <- mapM (fun f : Z * Py.value =>
                  iree_cl.from_sequence ([Py.Int_ (fst f)] ++ [snd f])%list)
               (enumerate flags) ;;
  ret (PySet.of_list objs).

(** [TirConfig(flags)]: [if flags] holds for a list that is not empty. *)
Definition __init__ (flags : option (list Py.value)) : M t :=
  match flags with
  | Some ((_ :: _) as fl) =>
      s <- parse_flags fl ;;
      ret (mk s None)
  | _ => ret (mk [] None)
  end.

Definition add_flag (self : t) (flag : iree_cl.t) : t :=
  mk (PySet.add flag (_flags self)) (_mlir_output_path self).

Definition with_debug_flags (self : t) : M t :=
  f1 <- iree_cl.__init__ (-1000) "--mlir-elide-elementsattrs-if-larger" (Py.Int_ 1) ;;
  let self := add_flag self f1 in
  f2 <- iree_cl.__init__ (-1000) "--mlir-print-ir-before-all" Py.None_ ;;
  let self := add_flag self f2 in
  ret self.

Definition with_cpu_target (self : t) (target : option string) : M t :=
  let target := match target with None => "host" | Some s => s end in
  f <- iree_cl.__init__ (-1) "--iree-llvm-target-cpu-features" (Py.Str_ target) ;;
  ret (add_flag self f).

Definition with_gpu_target (self : t) (target_sm : string) : M t :=
  f <- iree_cl.__init__ (-1) "--iree-hal-cuda-llvm-target-arch"
         (Py.Str_ ("sm_" ++ Py.replace target_sm "." "")) ;;
  ret (add_flag self f).

Definition with_mlir_ir_output (self : t) (path : string) : M t :=
  ret (mk (_flags self) (Some path)).

(** Reading a slot that was never assigned raises [AttributeError]. *)
Definition save_ir (self : t) (mlir_module : string) : M unit :=
  match _mlir_output_path self with
  | None => raise (Py.AttributeError "_mlir_output_path")
  | Some path =>
      if Py.truthy (Py.Str_ path)
      then write_file path mlir_module
      else ret tt
  end.

Definition get_compiler_args (it : PySet.order) (self : t) : list string :=
  map iree_cl.__str__ (Py.sorted iree_cl.position (it (_flags self))).

(** [value] defaults to [None] and [index] to -1. *)
Definition register_additional_parameters
    (self : t) (name : string) (value : option Py.value) (index : option Z)
  : M t :=
  let value := match value with None => Py.None_ | Some v => v end in
  let index := match index with None => -1 | Some i => i end in
  f <- iree_cl.__init__ index name value ;;
  ret (add_flag self f).

(** A call of one of the builder methods, and a chain of them
    [config.m1(...).m2(...)]. *)
Inductive call : Type :=
| debug_flags
| cpu_target (target : option string)
| gpu_target (target_sm : string)
| mlir_ir_output (path : string)
| additional_parameters (name : string) (value : option Py.value) (index : option Z).

Definition invoke (self : t) (c : call) : M t :=
  match c with
  | debug_flags => with_debug_flags self
  | cpu_target target => with_cpu_target self target
  | gpu_target target_sm => with_gpu_target self target_sm
  | mlir_ir_output path => with_mlir_ir_output self path
  | additional_parameters name value index =>
      register_additional_parameters self name value index
  end.

Fixpoint chain (self : t) (calls : list call) : M t :=
  match calls with
  | [] => ret self
  | c :: calls' => self' <- invoke self c ;; chain self' calls'
  end.

(** [TirConfig(flags).m1(...).m2(...)]. *)
Definition build (flags : option (list Py.value)) (calls : list call) : M t :=
  self <- __init__ flags ;; chain self calls.

End TirConfig.

(** A world in which nothing was created yet and every path can be written. *)
Definition world0 : world := mkWorld 0 (fun _ => None) (fun _ => true).

(** A statement about a rendering that holds whatever the iteration order of
    the set is. *)
Definition in_every_iteration_order (P : PySet.order -> Prop) : Prop :=
  forall it : PySet.order, PySet.iteration_order it -> P it.


(** ** Vocabulary of the statements *)

(** The world after [k] more objects were created. *)
Definition advance (k : nat) (w : world) : world :=
  mkWorld (k + next_oid w) (files w) (writable w).

(** Every member of [s] was created before the object numbered [n]. *)
Definition created_before (n : nat) (s : PySet.t) : Prop :=
  Forall (fun f => (iree_cl.oid f < n)%nat) s.

(** What an observer sees of a flag: position, identifier and value. *)
Definition fields (f : iree_cl.t) : Z * string * Py.value :=
  (iree_cl.position f, iree_cl.id f, iree_cl.value f).

(** The objects [parse_flags] creates for the entries [fl], the first of them
    at index [start] with identity [n]. *)
Fixpoint parsed (start : Z) (n : nat) (fl : list Py.value) : list iree_cl.t :=
  match fl with
  | [] => []
  | x :: fl' =>
      iree_cl.mk n start (Py.str x) Py.None_ :: parsed (start + 1) (S n) fl'
  end.

Definition default {A : Type} (d : A) (o : option A) : A :=
  match o with None => d | Some a => a end.

Definition debug_elide : string := "--mlir-elide-elementsattrs-if-larger".
Definition debug_print : string := "--mlir-print-ir-before-all".

(** The objects a builder call creates when the next identity is [n]. *)
Definition made_by (c : TirConfig.call) (n : nat) : list iree_cl.t :=
  match c with
  | TirConfig.debug_flags =>
      [iree_cl.mk n (-1000) debug_elide (Py.Int_ 1);
       iree_cl.mk (S n) (-1000) debug_print Py.None_]
  | TirConfig.cpu_target target =>
      [iree_cl.mk n (-1) "--iree-llvm-target-cpu-features"
         (Py.Str_ (default "host" target))]
  | TirConfig.gpu_target target_sm =>
      [iree_cl.mk n (-1) "--iree-hal-cuda-llvm-target-arch"
         (Py.Str_ ("sm_" ++ Py.replace target_sm "." ""))]
  | TirConfig.mlir_ir_output _ => []
  | TirConfig.additional_parameters name value index =>
      [iree_cl.mk n (default (-1) index) name (default Py.None_ value)]
  end.

Fixpoint made_by_all (calls : list TirConfig.call) (n : nat) : list iree_cl.t :=
  match calls with
  | [] => []
  | c :: calls' =>
      (made_by c n ++ made_by_all calls' (List.length (made_by c n) + n))%list
  end.

(** The output path after a call. *)
Definition path_after (c : TirConfig.call) (path : option string) : option string :=
  match c with
  | TirConfig.mlir_ir_output p => Some p
  | _ => path
  end.

Definition path_after_all (calls : list TirConfig.call) (path : option string)
  : option string :=
  fold_left (fun p c => path_after c p) calls path.

(** A call other than [with_debug_flags] whose flag, if it makes one, sits
    above the position of the debug flags. *)
Definition above_debug (c : TirConfig.call) : bool :=
  match c with
  | TirConfig.debug_flags => false
  | TirConfig.additional_parameters _ _ index => -1000 <? default (-1) index
  | _ => true
  end.

Definition sets_path (c : TirConfig.call) : bool :=
  match c with
  | TirConfig.mlir_ir_output _ => true
  | _ => false
  end.

(** How many flags a call constructs. *)
Definition flags_added (c : TirConfig.call) : nat :=
  match c with
  | TirConfig.debug_flags => 2
  | TirConfig.mlir_ir_output _ => 0
  | _ => 1
  end.

(** The characters of [s] other than [c]. *)
Fixpoint without_char (c : ascii) (s : string) : string :=
  match s with
  | EmptyString => EmptyString
  | String a s' =>
      if Ascii.eqb a c then without_char c s' else String a (without_char c s')
  end.

(** A call whose flag, if it makes one, sits at a negative position. *)
Definition negative_index (c : TirConfig.call) : bool :=
  match c with
  | TirConfig.additional_parameters _ _ index => default (-1) index <? 0
  | _ => true
  end.

(** A call whose flag, if it makes one, sits below position [m]. *)
Definition index_below (m : Z) (c : TirConfig.call) : bool :=
  match c with
  | TirConfig.additional_parameters _ _ index => default (-1) index <? m
  | _ => true
  end.

Definition is_cpu (t : TirTarget.t) : bool :=
  match t with
  | TirTarget.INTERPRETED_CPU | TirTarget.COMPILED_CPU => true
  | _ => false
  end.

(** ** class TirConfigStore *)

(** [with open(path, r) as f]: the text of the file, or [OSError] for a path
    that holds no file to read. *)
Definition read_file (path : string) : M string :=
  fun w =>
    match files w path with
    | Some text => (Py.Ok text, w)
    | None => (Py.Raise (Py.OSError path), w)
    end.

Module TirConfigStore.

Section Externals.

(** What the module imports: the hub client ([hf_hub_url], which builds the
    address of a file of a repository at a revision, and [cached_download],
    which fetches an address and returns the local path or [None]), the user
    agent text, the TOML reader and [pathlib.Path], taken here as the text
    [open] receives for a path.  A document maps its keys to entries of a
    type [toml]. *)
Context {toml : Type}.
Variable hf_hub_url : string -> string -> string -> string.
Variable cached_download : string -> string -> M (option string).
Variable _TIR_HUB_USER_AGENT : string.
Variable load_toml : string -> Py.result (string -> option toml).
Variable Path : string -> string.

Record t : Type := mk {
  _repo_id : string;
  _store : string -> option toml
}.

Definition __init__ (repo_id : string) (store : string -> option toml) : t :=
  mk repo_id store.

Definition from_file (filepath repo_id : string) : M t :=
  text <- read_file filepath ;;
  store <- lift (load_toml text) ;;
  ret (__init__ repo_id store).

(** [filename] defaults to tir-config.store and [branch] to tir. *)
Definition from_hub (repo_id : string) (filename branch : option string) : M t :=
  let filename := default "tir-config.store" filename in
  let branch := default "tir" branch in
  let target_repo_url := hf_hub_url repo_id filename branch in
  local_file_path <- cached_download target_repo_url _TIR_HUB_USER_AGENT ;;
  match local_file_path with
  | Some p => from_file (Path p) repo_id
  | None =>
      raise (Py.ValueError
        ("Unable to find " ++ filename ++ " at " ++ target_repo_url ++ "."))
  end.

(** [self._store[item]]; [None] stands for the [KeyError] of a missing key. *)
Definition __getitem__ (self : t) (item : string) : option toml :=
  _store self item.

End Externals.

End TirConfigStore.

(** The order [sorted] puts its result in. *)
Definition key_le {A : Type} (key : A -> Z) (a b : A) : Prop := key a <= key b.

(** * Facts about the builtins *)

Local Open Scope list_scope.

Example repr_pair :
  Py.repr (Py.Tuple_ [Py.Str_ "--foo"; Py.Int_ (-12)]) = "('--foo', -12)"%string.
Proof. reflexivity. Qed.

Example repr_single :
  Py.repr (Py.Tuple_ [Py.Str_ "it's"])
  = ("(" ++ String Py.dquote "it's" ++ String Py.dquote ",)")%string.
Proof. reflexivity. Qed.

Example repr_escapes :
  Py.repr (Py.Str_ (String (ascii_of_nat 9) (String (ascii_of_nat 127) "\")))
  = "'\t\x7f\\'"%string.
Proof. reflexivity. Qed.

Example str_of_zero : Py.str (Py.Int_ 0) = "0"%string.
Proof. reflexivity. Qed.

Example replace_dots : Py.replace "8.0.1" "." "" = "801"%string.
Proof. reflexivity. Qed.

Example replace_no_overlap : Py.replace "aaa" "aa" "b" = "ba"%string.
Proof. reflexivity. Qed.

Example replace_empty_pattern : Py.replace "abc" "" "-" = "-a-b-c-"%string.
Proof. reflexivity. Qed.

Example int_of_text : Py.int (Py.Str_ " -1_000 ") = Py.Ok (-1000).
Proof. reflexivity. Qed.

Example int_of_bad_text :
  Py.int (Py.Str_ "1__0")
  = Py.Raise (Py.ValueError "invalid literal for int() with base 10: '1__0'").
Proof. reflexivity. Qed.

Example int_of_long_bad_text :
  match Py.int (Py.Str_ (string_of_list_ascii (repeat "x"%char 201))) with
  | Py.Raise (Py.ValueError msg) =>
      String.length msg = 240%nat
      /\ String.substring 0 44 msg
         = "invalid literal for int() with base 10: 'xxx"%string
      /\ String.substring 234 6 msg = "xxxxxx"%string
  | _ => False
  end.
Proof. repeat split. Qed.

Example sorted_is_stable :
  Py.sorted fst [(2, "a"); (1, "b"); (2, "c"); (1, "d")]%string
  = [(1, "b"); (1, "d"); (2, "a"); (2, "c")]%string.
Proof. reflexivity. Qed.

Example format_by_value :
  TirTarget.to_tf_compiler_value TirTarget.FormatValue TirTarget.COMPILED_CUDA
  = Py.Raise (Py.ValueError "Target cuda is not compatible with tf compiler.").
Proof. reflexivity. Qed.

Example format_by_name :
  TirTarget.to_tf_compiler_value TirTarget.FormatName TirTarget.COMPILED_ROCM
  = Py.Raise (Py.ValueError
      "Target TirTarget.COMPILED_ROCM is not compatible with tf compiler.").
Proof. reflexivity. Qed.

Example chain_of_calls :
  exists self w',
    TirConfig.build (Some [Py.Str_ "--a"; Py.Str_ "--b=1"])
      [TirConfig.additional_parameters "--c" (Some (Py.Int_ 4)) (Some 1);
       TirConfig.gpu_target "7.5"; TirConfig.debug_flags] world0
    = (Py.Ok self, w')
    /\ TirConfig.get_compiler_args PySet.insertion_order self
       = ["--mlir-elide-elementsattrs-if-larger=1"; "--mlir-print-ir-before-all";
          "--iree-hal-cuda-llvm-target-arch=sm_75"; "--a"; "--b=1"; "--c=4"]%string.
Proof. do 2 eexists. split; reflexivity. Qed.

Section SortedFacts.
Context {A : Type} (key : A -> Z).

Lemma insert_by_perm (x : A) (l : list A) :
  Permutation (Py.insert_by key x l) (x :: l).
Proof.
  induction l as [|y l IH]; simpl.
  - reflexivity.
  - destruct (key x <=? key y).
    + reflexivity.
    + rewrite IH. apply perm_swap.
Qed.

Lemma sorted_perm (l : list A) : Permutation (Py.sorted key l) l.
Proof.
  induction l as [|x l IH]; simpl.
  - constructor.
  - rewrite insert_by_perm. now constructor.
Qed.

Lemma insert_by_sorted (x : A) (l : list A) :
  StronglySorted (key_le key) l -> StronglySorted (key_le key) (Py.insert_by key x l).
Proof.
  induction 1 as [|y l Hl IH Hy]; simpl.
  - repeat constructor.
  - destruct (Z.leb_spec (key x) (key y)) as [Hxy|Hxy].
    + constructor.
      * now constructor.
      * constructor; [exact Hxy|].
        eapply Forall_impl; [|exact Hy].
        unfold key_le. intros a Ha. lia.
    + constructor; [exact IH|].
      eapply Permutation_Forall.
      * symmetry. apply insert_by_perm.
      * constructor; [unfold key_le; lia | exact Hy].
Qed.

Lemma sorted_sorted (l : list A) : StronglySorted (key_le key) (Py.sorted key l).
Proof.
  induction l as [|x l IH]; simpl.
  - constructor.
  - now apply insert_by_sorted.
Qed.

Lemma filter_above (m : Z) (l : list A) :
  Forall (fun y => m < key y) l ->
  filter (fun y => key y =? m) l = []
  /\ filter (fun y => negb (key y =? m)) l = l.
Proof.
  induction 1 as [|y l Hy _ [IH1 IH2]]; simpl.
  - now split.
  - destruct (Z.eqb_spec (key y) m); [lia|]. simpl. split; congruence.
Qed.

(** A sorted list whose keys are all at least [m] starts with the elements
    of key [m]. *)
Lemma sorted_least_first (m : Z) (l : list A) :
  StronglySorted (key_le key) l ->
  Forall (fun x => m <= key x) l ->
  l = (filter (fun x => key x =? m) l
       ++ filter (fun x => negb (key x =? m)) l)%list.
Proof.
  induction 1 as [|x l Hl IH Hx]; intros Hm; simpl.
  - reflexivity.
  - inversion Hm as [|? ? Hmx Hml]; subst.
    destruct (Z.eqb_spec (key x) m) as [E|E]; simpl.
    + f_equal. now apply IH.
    + destruct (filter_above m l) as [Hnone Hall].
      { eapply Forall_impl; [|exact Hx]. unfold key_le. intros a Ha. lia. }
      now rewrite Hnone, Hall.
Qed.
End SortedFacts.

Lemma filter_perm {A : Type} (p : A -> bool) (l l' : list A) :
  Permutation l l' -> Permutation (filter p l) (filter p l').
Proof.
  induction 1 as [|x l l' _ IH|x y l|l l' l'' _ IH1 _ IH2]; simpl.
  - constructor.
  - destruct (p x); [now constructor | exact IH].
  - destruct (p x), (p y); try reflexivity. apply perm_swap.
  - now transitivity (filter p l').
Qed.

(** * Facts about sets of flags and the world *)

Lemma advance_advance (j k : nat) (w : world) :
  advance j (advance k w) = advance (j + k) w.
Proof. unfold advance; simpl. f_equal. lia. Qed.

Lemma advance_0 (w : world) : advance 0 w = w.
Proof. now destruct w. Qed.

Lemma created_before_mono (n m : nat) (s : PySet.t) :
  (n <= m)%nat -> created_before n s -> created_before m s.
Proof.
  intros Hnm Hs. eapply Forall_impl; [|exact Hs]. simpl. intros f Hf. lia.
Qed.

Lemma created_before_app (n : nat) (s s' : PySet.t) :
  created_before n s -> created_before n s' -> created_before n (s ++ s').
Proof. intros H H'. apply Forall_app. now split. Qed.

(** A new object is no member of a set of older objects, whatever its
    identifier and whatever the hash of its identifier. *)
Lemma contains_new (n : nat) (x : iree_cl.t) (s : PySet.t) :
  created_before n s -> iree_cl.oid x = n -> PySet.contains x s = false.
Proof.
  intros Hs Hx. unfold PySet.contains.
  induction Hs as [|y s Hy _ IH]; simpl.
  - reflexivity.
  - rewrite IH, orb_false_r. unfold iree_cl.__eq__.
    apply Nat.eqb_neq. lia.
Qed.

Lemma lookup_new (str_hash : string -> Z) (n : nat) (x : iree_cl.t) (s : PySet.t) :
  created_before n s -> iree_cl.oid x = n -> PySet.lookup str_hash x s = false.
Proof.
  intros Hs Hx. unfold PySet.lookup.
  induction Hs as [|y s Hy _ IH]; simpl.
  - reflexivity.
  - rewrite IH, orb_false_r. unfold iree_cl.__eq__.
    replace (Nat.eqb (iree_cl.oid y) (iree_cl.oid x)) with false.
    + apply andb_false_r.
    + symmetry. apply Nat.eqb_neq. lia.
Qed.

Lemma add_new (n : nat) (x : iree_cl.t) (s : PySet.t) :
  created_before n s -> iree_cl.oid x = n -> PySet.add x s = (s ++ [x])%list.
Proof.
  intros Hs Hx. unfold PySet.add. now rewrite (contains_new n).
Qed.

Lemma parsed_length (fl : list Py.value) :
  forall start n, List.length (parsed start n fl) = List.length fl.
Proof. induction fl as [|x fl IH]; simpl; intros; [reflexivity | now rewrite IH]. Qed.

Lemma parsed_created (fl : list Py.value) :
  forall start n m,
    (List.length fl + n <= m)%nat -> created_before m (parsed start n fl).
Proof.
  induction fl as [|x fl IH]; simpl; intros start n m Hm.
  - constructor.
  - constructor; [simpl; lia | apply IH; lia].
Qed.

Lemma parsed_positions (fl : list Py.value) :
  forall start n,
    Forall (fun f => start <= iree_cl.position f) (parsed start n fl).
Proof.
  induction fl as [|x fl IH]; simpl; intros start n.
  - constructor.
  - constructor; [simpl; lia|].
    eapply Forall_impl; [|apply (IH (start + 1) (S n))].
    simpl. intros f Hf. lia.
Qed.

Lemma parsed_fields (fl : list Py.value) :
  forall start n,
    map fields (parsed start n fl)
    = map (fun f : Z * Py.value => (fst f, Py.str (snd f), Py.None_))
          (enumerate_from start fl).
Proof.
  induction fl as [|x fl IH]; simpl; intros start n.
  - reflexivity.
  - now rewrite IH.
Qed.

(** [set(...)] of objects created one after the other keeps them all. *)
Lemma of_list_parsed (fl : list Py.value) :
  forall start n acc,
    created_before n acc ->
    fold_left (fun s x => PySet.add x s) (parsed start n fl) acc
    = (acc ++ parsed start n fl)%list.
Proof.
  induction fl as [|x fl IH]; simpl; intros start n acc Hacc.
  - now rewrite app_nil_r.
  - rewrite (add_new n); [|exact Hacc|reflexivity].
    rewrite IH.
    + now rewrite <- app_assoc.
    + apply created_before_app.
      * apply (created_before_mono n); [lia | exact Hacc].
      * repeat constructor.
Qed.

Lemma made_by_created (c : TirConfig.call) (n : nat) :
  created_before (List.length (made_by c n) + n) (made_by c n).
Proof. destruct c; simpl; repeat constructor. Qed.

Lemma made_by_all_created (calls : list TirConfig.call) :
  forall n, created_before (List.length (made_by_all calls n) + n) (made_by_all calls n).
Proof.
  induction calls as [|c calls IH]; simpl; intros n.
  - constructor.
  - rewrite length_app. apply created_before_app.
    + eapply created_before_mono; [|apply made_by_created]. lia.
    + eapply created_before_mono; [|apply IH]. lia.
Qed.

Lemma made_by_all_app (calls calls' : list TirConfig.call) :
  forall n,
    made_by_all (calls ++ calls') n
    = (made_by_all calls n
       ++ made_by_all calls' (List.length (made_by_all calls n) + n))%list.
Proof.
  induction calls as [|c calls IH]; simpl; intros n.
  - reflexivity.
  - rewrite IH, <- app_assoc, length_app. do 3 f_equal. lia.
Qed.

Lemma above_debug_positions (calls : list TirConfig.call) :
  forallb above_debug calls = true ->
  forall n, Forall (fun f => -1000 < iree_cl.position f) (made_by_all calls n).
Proof.
  induction calls as [|c calls IH]; simpl; intros H n.
  - constructor.
  - apply andb_true_iff in H as [Hc H].
    apply Forall_app. split; [|now apply IH].
    destruct c; simpl in *; try discriminate; repeat constructor; simpl; lia.
Qed.

(** * Running the constructor and the builder methods *)

Lemma mapM_from_sequence (fl : list Py.value) :
  forall start w,
    mapM (fun f : Z * Py.value =>
            iree_cl.from_sequence ([Py.Int_ (fst f)] ++ [snd f])%list)
         (enumerate_from start fl) w
    = (Py.Ok (parsed start (next_oid w) fl), advance (List.length fl) w).
Proof.
  induction fl as [|x fl IH]; intros start w; simpl.
  - unfold ret. now rewrite advance_0.
  - unfold bind at 1. simpl. unfold bind at 1. simpl.
    rewrite IH. simpl. unfold ret, advance. simpl. do 2 f_equal. lia.
Qed.

Lemma parse_flags_run (fl : list Py.value) (w : world) :
  TirConfig.parse_flags fl w
  = (Py.Ok (parsed 0 (next_oid w) fl), advance (List.length fl) w).
Proof.
  unfold TirConfig.parse_flags, enumerate, bind.
  rewrite mapM_from_sequence. unfold ret, PySet.of_list.
  rewrite (of_list_parsed fl 0 (next_oid w) []); [reflexivity | constructor].
Qed.

Lemma init_run (flags : option (list Py.value)) (w : world) :
  TirConfig.__init__ flags w
  = (Py.Ok (TirConfig.mk (parsed 0 (next_oid w) (default [] flags)) None),
     advance (List.length (default [] flags)) w).
Proof.
  destruct flags as [[|x fl]|]; simpl; unfold ret; try now rewrite advance_0.
  unfold bind. now rewrite parse_flags_run.
Qed.

Lemma invoke_run (self : TirConfig.t) (c : TirConfig.call) (w : world) :
  created_before (next_oid w) (TirConfig._flags self) ->
  TirConfig.invoke self c w
  = (Py.Ok (TirConfig.mk (TirConfig._flags self ++ made_by c (next_oid w))
                         (path_after c (TirConfig._mlir_output_path self))),
     advance (List.length (made_by c (next_oid w))) w).
Proof.
  intros Hs. destruct c; simpl.
  - unfold TirConfig.with_debug_flags, bind, ret, TirConfig.add_flag; simpl.
    rewrite (add_new (next_oid w) (iree_cl.mk (next_oid w) _ _ _)
               (TirConfig._flags self) Hs eq_refl).
    rewrite (add_new (S (next_oid w))); [|
      apply created_before_app;
        [apply (created_before_mono (next_oid w)); [lia | exact Hs]
        | repeat constructor] | reflexivity].
    now rewrite <- app_assoc.
  - unfold TirConfig.with_cpu_target, bind, ret, TirConfig.add_flag; simpl.
    rewrite (add_new (next_oid w)); [|exact Hs|reflexivity].
    now destruct target.
  - unfold TirConfig.with_gpu_target, bind, ret, TirConfig.add_flag; simpl.
    now rewrite (add_new (next_oid w)); [|exact Hs|reflexivity].
  - unfold TirConfig.with_mlir_ir_output, ret.
    now rewrite app_nil_r, advance_0.
  - unfold TirConfig.register_additional_parameters, bind, ret,
      TirConfig.add_flag; simpl.
    rewrite (add_new (next_oid w)); [|exact Hs|reflexivity].
    now destruct value, index.
Qed.

Lemma chain_run (calls : list TirConfig.call) :
  forall (self : TirConfig.t) (w : world),
    created_before (next_oid w) (TirConfig._flags self) ->
    TirConfig.chain self calls w
    = (Py.Ok (TirConfig.mk
                (TirConfig._flags self ++ made_by_all calls (next_oid w))
                (path_after_all calls (TirConfig._mlir_output_path self))),
       advance (List.length (made_by_all calls (next_oid w))) w).
Proof.
  induction calls as [|c calls IH]; intros self w Hs; simpl.
  - unfold ret. rewrite app_nil_r, advance_0. now destruct self.
  - unfold bind. rewrite (invoke_run self c w Hs).
    rewrite IH; simpl.
    + rewrite <- app_assoc, advance_advance, length_app.
      unfold path_after_all. simpl. do 2 f_equal. lia.
    + apply created_before_app.
      * eapply created_before_mono; [|exact Hs]. lia.
      * apply made_by_created.
Qed.

Lemma build_run (flags : option (list Py.value)) (calls : list TirConfig.call)
    (w : world) :
  let fl := default [] flags in
  let n := (List.length fl + next_oid w)%nat in
  TirConfig.build flags calls w
  = (Py.Ok (TirConfig.mk (parsed 0 (next_oid w) fl ++ made_by_all calls n)
                         (path_after_all calls None)),
     advance (List.length (made_by_all calls n) + List.length fl) w).
Proof.
  intros fl n. unfold TirConfig.build, bind. rewrite init_run.
  rewrite chain_run; simpl.
  - now rewrite advance_advance.
  - apply parsed_created. fold fl. lia.
Qed.

Lemma path_after_all_unset (calls : list TirConfig.call) :
  forallb (fun c => negb (sets_path c)) calls = true ->
  path_after_all calls None = None.
Proof.
  unfold path_after_all.
  induction calls as [|c calls IH]; simpl; intros H.
  - reflexivity.
  - apply andb_true_iff in H as [Hc H].
    destruct c; simpl in *; try discriminate; now apply IH.
Qed.

(** * Rendering *)

Lemma one_order (it : PySet.order) (a : iree_cl.t) :
  PySet.iteration_order it -> it [a] = [a].
Proof.
  intros Hit. apply Permutation_length_1_inv, Permutation_sym, Hit.
Qed.

Lemma two_orders (it : PySet.order) (a b : iree_cl.t) :
  PySet.iteration_order it -> it [a; b] = [a; b] \/ it [a; b] = [b; a].
Proof.
  intros Hit. apply Permutation_length_2_inv, Permutation_sym, Hit.
Qed.

(** Whatever the iteration order, the flags at the least position are
    rendered first. *)
Lemma rendering_least_first (it : PySet.order) (self : TirConfig.t) (m : Z) :
  PySet.iteration_order it ->
  Forall (fun f => m <= iree_cl.position f) (TirConfig._flags self) ->
  exists firsts rest : list iree_cl.t,
    Permutation firsts
      (filter (fun f => iree_cl.position f =? m) (TirConfig._flags self))
    /\ Forall (fun f => m < iree_cl.position f) rest
    /\ TirConfig.get_compiler_args it self
       = map iree_cl.__str__ firsts ++ map iree_cl.__str__ rest.
Proof.
  intros Hit Hm.
  set (S := Py.sorted iree_cl.position (it (TirConfig._flags self))).
  assert (HS : Permutation S (TirConfig._flags self)).
  { unfold S. rewrite sorted_perm. apply Hit. }
  exists (filter (fun f => iree_cl.position f =? m) S),
         (filter (fun f => negb (iree_cl.position f =? m)) S).
  split; [now apply filter_perm|]. split.
  - apply Forall_forall. intros f Hf. apply filter_In in Hf as [Hf Hne].
    assert (Hle : m <= iree_cl.position f).
    { eapply Forall_forall in Hm; [exact Hm|].
      eapply Permutation_in; [exact HS | exact Hf]. }
    destruct (Z.eqb_spec (iree_cl.position f) m); [discriminate | lia].
  - unfold TirConfig.get_compiler_args. fold S.
    rewrite <- map_app. f_equal.
    apply sorted_least_first.
    + apply sorted_sorted.
    + eapply Permutation_Forall; [apply Permutation_sym, HS | exact Hm].
Qed.

(** The rendering lists the flags by ascending position. *)
Lemma rendering_ascending (it : PySet.order) (self : TirConfig.t) :
  PySet.iteration_order it ->
  exists l : list iree_cl.t,
    Permutation l (TirConfig._flags self)
    /\ StronglySorted (key_le iree_cl.position) l
    /\ TirConfig.get_compiler_args it self = map iree_cl.__str__ l.
Proof.
  intros Hit.
  exists (Py.sorted iree_cl.position (it (TirConfig._flags self))).
  split; [|split].
  - rewrite sorted_perm. apply Hit.
  - apply sorted_sorted.
  - reflexivity.
Qed.

Lemma prefix_dot (c : ascii) (s : string) :
  String.prefix "." (String c s) = Ascii.eqb c "."%char.
Proof.
  cbn [String.prefix].
  destruct (ascii_dec "."%char c) as [<-|Hc].
  - now destruct s.
  - symmetry. apply Ascii.eqb_neq. congruence.
Qed.

Lemma replace_dot (s : string) : Py.replace s "." "" = without_char "."%char s.
Proof.
  unfold Py.replace.
  induction s as [|c s IH]; [reflexivity|].
  cbn [Py.replace_from without_char]. rewrite prefix_dot.
  cbn [String.length Nat.pred append]. now rewrite IH.
Qed.

(** * The claims *)

Local Open Scope string_scope.

(** C9. [to_tf_compiler_value] returns iree_vmvx for INTERPRETED_CPU,
    iree_llvmcpu for COMPILED_CPU and iree_vulkan for COMPILED_GPU; for
    COMPILED_CUDA and COMPILED_ROCM it raises a ValueError whose message names
    the target (by its value up to Python 3.10, by its qualified name from
    Python 3.11 on), and it raises for no other target. *)
Theorem to_tf_compiler_value_cases :
  (forall py : TirTarget.enum_format,
      TirTarget.to_tf_compiler_value py TirTarget.INTERPRETED_CPU
      = Py.Ok "iree_vmvx"
      /\ TirTarget.to_tf_compiler_value py TirTarget.COMPILED_CPU
         = Py.Ok "iree_llvmcpu"
      /\ TirTarget.to_tf_compiler_value py TirTarget.COMPILED_GPU
         = Py.Ok "iree_vulkan")
  /\ TirTarget.to_tf_compiler_value TirTarget.FormatValue TirTarget.COMPILED_CUDA
     = Py.Raise (Py.ValueError "Target cuda is not compatible with tf compiler.")
  /\ TirTarget.to_tf_compiler_value TirTarget.FormatValue TirTarget.COMPILED_ROCM
     = Py.Raise (Py.ValueError "Target rocm is not compatible with tf compiler.")
  /\ TirTarget.to_tf_compiler_value TirTarget.FormatName TirTarget.COMPILED_CUDA
     = Py.Raise (Py.ValueError
         "Target TirTarget.COMPILED_CUDA is not compatible with tf compiler.")
  /\ TirTarget.to_tf_compiler_value TirTarget.FormatName TirTarget.COMPILED_ROCM
     = Py.Raise (Py.ValueError
         "Target TirTarget.COMPILED_ROCM is not compatible with tf compiler.")
  /\ forall (py : TirTarget.enum_format) (self : TirTarget.t),
       (exists msg, TirTarget.to_tf_compiler_value py self
                    = Py.Raise (Py.ValueError msg))
       <-> (self = TirTarget.COMPILED_CUDA \/ self = TirTarget.COMPILED_ROCM).
Proof.
  split; [intros py; repeat split|].
  repeat (split; [reflexivity|]).
  intros py self. split.
  - intros [msg Hmsg]. destruct self; try discriminate Hmsg; auto.
  - intros [-> | ->]; eexists; reflexivity.
Qed.

(** C10. [to_driver] returns a driver name for every target and raises for
    none: cuda for COMPILED_CUDA, rocm for COMPILED_ROCM, vulkan for
    COMPILED_GPU, local-task for INTERPRETED_CPU and for COMPILED_CPU. *)
Theorem to_driver_cases :
  forall self : TirTarget.t,
    TirTarget.to_driver self
    = match self with
      | TirTarget.COMPILED_CUDA => "cuda"
      | TirTarget.COMPILED_ROCM => "rocm"
      | TirTarget.COMPILED_GPU => "vulkan"
      | TirTarget.INTERPRETED_CPU => "local-task"
      | TirTarget.COMPILED_CPU => "local-task"
      end.
Proof. intros []; reflexivity. Qed.

(** C7. On a configuration made with no flags, [with_gpu_target] of the
    text 8.0 adds a flag that is rendered as
    --iree-hal-cuda-llvm-target-arch=sm_80; for any capability text the value
    is sm_ followed by the text without its dots. *)
Theorem with_gpu_target_rendering
    (it : PySet.order) (Hit : PySet.iteration_order it) (w : world) :
  (exists self w',
      TirConfig.build None [TirConfig.gpu_target "8.0"] w = (Py.Ok self, w')
      /\ TirConfig.get_compiler_args it self
         = ["--iree-hal-cuda-llvm-target-arch=sm_80"])
  /\ forall target_sm : string,
       exists self w',
         TirConfig.build None [TirConfig.gpu_target target_sm] w = (Py.Ok self, w')
         /\ TirConfig.get_compiler_args it self
            = ["--iree-hal-cuda-llvm-target-arch=sm_"
               ++ without_char "."%char target_sm].
Proof.
  assert (General : forall target_sm : string,
    exists self w',
      TirConfig.build None [TirConfig.gpu_target target_sm] w = (Py.Ok self, w')
      /\ TirConfig.get_compiler_args it self
         = ["--iree-hal-cuda-llvm-target-arch=sm_"
            ++ without_char "."%char target_sm]).
  { intros target_sm. rewrite build_run. do 2 eexists. split; [reflexivity|].
    unfold TirConfig.get_compiler_args.
    cbn [TirConfig._flags made_by_all made_by parsed default app].
    rewrite replace_dot, (one_order it _ Hit). reflexivity. }
  split; [exact (General "8.0") | exact General].
Qed.

Lemma with_gpu_target_rendering_witness :
  exists self w',
    TirConfig.build None [TirConfig.gpu_target "8.0"] world0 = (Py.Ok self, w')
    /\ TirConfig.get_compiler_args PySet.insertion_order self
       = ["--iree-hal-cuda-llvm-target-arch=sm_80"].
Proof.
  apply (with_gpu_target_rendering PySet.insertion_order).
  intros s. apply Permutation_refl.
Defined.

(** C8. On a configuration made with no flags, [with_cpu_target] called
    without an argument adds a flag that is rendered as
    --iree-llvm-target-cpu-features=host. *)
Theorem with_cpu_target_default_rendering
    (it : PySet.order) (Hit : PySet.iteration_order it) (w : world) :
  exists self w',
    TirConfig.build None [TirConfig.cpu_target None] w = (Py.Ok self, w')
    /\ TirConfig.get_compiler_args it self
       = ["--iree-llvm-target-cpu-features=host"].
Proof.
  rewrite build_run. do 2 eexists. split; [reflexivity|].
  unfold TirConfig.get_compiler_args. simpl.
  now rewrite (one_order it _ Hit).
Qed.

Lemma with_cpu_target_default_rendering_witness :
  exists self w',
    TirConfig.build None [TirConfig.cpu_target None] world0 = (Py.Ok self, w')
    /\ TirConfig.get_compiler_args PySet.insertion_order self
       = ["--iree-llvm-target-cpu-features=host"].
Proof.
  apply (with_cpu_target_default_rendering PySet.insertion_order).
  intros s. apply Permutation_refl.
Defined.

(** C6, as the code has it.  When every other call is a builder call other
    than [with_debug_flags] whose flag sits at a position above -1000 (the
    parsed flags, the CPU and GPU targets and the parameters registered with
    an index above -1000 do), the two debug flags are the first two
    arguments of the rendering, in one order or the other, whatever was
    called before or after [with_debug_flags]. *)
Theorem debug_flags_rendered_first
    (it : PySet.order) (Hit : PySet.iteration_order it)
    (flags : option (list Py.value)) (before after : list TirConfig.call)
    (w : world)
    (Hbefore : forallb above_debug before = true)
    (Hafter : forallb above_debug after = true) :
  exists self w' rest,
    TirConfig.build flags (before ++ TirConfig.debug_flags :: after) w
    = (Py.Ok self, w')
    /\ (TirConfig.get_compiler_args it self
        = "--mlir-elide-elementsattrs-if-larger=1"
          :: "--mlir-print-ir-before-all" :: rest
        \/ TirConfig.get_compiler_args it self
           = "--mlir-print-ir-before-all"
             :: "--mlir-elide-elementsattrs-if-larger=1" :: rest).
Proof.
  rewrite build_run. cbv zeta.
  set (fl := default [] flags).
  set (n := (List.length fl + next_oid w)%nat).
  rewrite made_by_all_app.
  set (n' := (List.length (made_by_all before n) + n)%nat).
  cbn [made_by_all made_by List.length Nat.add app].
  set (d1 := iree_cl.mk n' (-1000) debug_elide (Py.Int_ 1)).
  set (d2 := iree_cl.mk (S n') (-1000) debug_print Py.None_).
  set (L := (parsed 0 (next_oid w) fl
             ++ made_by_all before n
             ++ d1 :: d2 :: made_by_all after (S (S n')))%list).
  set (self := TirConfig.mk L _).
  assert (Hparsed : Forall (fun f => -1000 < iree_cl.position f)
                           (parsed 0 (next_oid w) fl)).
  { eapply Forall_impl; [|apply parsed_positions]. simpl. intros f Hf. lia. }
  pose proof (above_debug_positions before Hbefore n) as Hb.
  pose proof (above_debug_positions after Hafter (S (S n'))) as Ha.
  assert (Hfilter : filter (fun f => (iree_cl.position f =? -1000)%Z) L = [d1; d2]).
  { unfold L. rewrite !filter_app. cbn [filter].
    destruct (filter_above iree_cl.position (-1000) _ Hparsed) as [-> _].
    destruct (filter_above iree_cl.position (-1000) _ Hb) as [-> _].
    destruct (filter_above iree_cl.position (-1000) _ Ha) as [-> _].
    reflexivity. }
  assert (Hall : Forall (fun f => -1000 <= iree_cl.position f) L).
  { unfold L. repeat (apply Forall_app; split); repeat apply Forall_cons;
      try (simpl; lia);
      (eapply Forall_impl; [|eassumption]); simpl; intros; lia. }
  destruct (rendering_least_first it self (-1000) Hit Hall)
    as (firsts & rest & Hfirsts & _ & Hrender).
  cbn [TirConfig._flags self] in Hfirsts. rewrite Hfilter in Hfirsts.
  exists self, (advance (List.length
                  (made_by_all before n
                   ++ d1 :: d2 :: made_by_all after (S (S n')))
                + List.length fl) w), (map iree_cl.__str__ rest).
  split; [reflexivity|].
  rewrite Hrender.
  apply Permutation_sym, Permutation_length_2_inv in Hfirsts as [-> | ->];
    [left | right]; reflexivity.
Qed.

Lemma debug_flags_rendered_first_witness :
  exists self w' rest,
    TirConfig.build (Some [Py.Str_ "--a"])
      ([TirConfig.cpu_target None; TirConfig.additional_parameters "--b" None None]
       ++ TirConfig.debug_flags
       :: [TirConfig.additional_parameters "--c" (Some (Py.Int_ 3)) (Some 5)])
      world0
    = (Py.Ok self, w')
    /\ (TirConfig.get_compiler_args PySet.insertion_order self
        = "--mlir-elide-elementsattrs-if-larger=1"
          :: "--mlir-print-ir-before-all" :: rest
        \/ TirConfig.get_compiler_args PySet.insertion_order self
           = "--mlir-print-ir-before-all"
             :: "--mlir-elide-elementsattrs-if-larger=1" :: rest).
Proof.
  apply (debug_flags_rendered_first PySet.insertion_order).
  - intros s. apply Permutation_refl.
  - reflexivity.
  - reflexivity.
Defined.

(** C6 as stated fails: a parameter registered at index -2000 before
    [with_debug_flags] is rendered ahead of both debug flags, in every
    iteration order of the set. *)
Lemma debug_flags_not_first :
  (exists self w',
      TirConfig.build None
        [TirConfig.additional_parameters "--x" None (Some (-2000));
         TirConfig.debug_flags] world0 = (Py.Ok self, w')
      /\ TirConfig.get_compiler_args PySet.insertion_order self
         = ["--x"; "--mlir-elide-elementsattrs-if-larger=1";
            "--mlir-print-ir-before-all"])
  /\ in_every_iteration_order (fun it =>
       exists self w',
         TirConfig.build None
           [TirConfig.additional_parameters "--x" None (Some (-2000));
            TirConfig.debug_flags] world0 = (Py.Ok self, w')
         /\ hd_error (TirConfig.get_compiler_args it self) = Some "--x").
Proof.
  split.
  - do 2 eexists. split; reflexivity.
  - intros it Hit. do 2 eexists. split; [reflexivity|].
    match goal with |- hd_error (TirConfig.get_compiler_args it ?c) = _ =>
      destruct (rendering_least_first it c (-2000) Hit)
        as (firsts & rest & Hfirsts & _ & ->)
    end.
    + repeat constructor; simpl; lia.
    + simpl in Hfirsts.
      apply Permutation_sym, Permutation_length_1_inv in Hfirsts as ->.
      reflexivity.
Qed.

(** C4, as the code has it.  [parse_flags] makes one flag per entry of the
    list: its position is the index of the entry, its identifier is the text
    of the whole entry (the entry itself when it is a string) and it has no
    value; a tuple given as an entry is not taken apart.  [from_sequence]
    makes a flag from a pair (position, identifier) and from a triplet
    (position, identifier, value), and raises a ValueError that names the
    number of parts for one part, four parts, and any number other than two
    and three. *)
Theorem parse_flags_entries (flags : list Py.value) (w : world) :
  (exists s : PySet.t,
      TirConfig.parse_flags flags w
      = (Py.Ok s, advance (List.length flags) w)
      /\ List.length s = List.length flags
      /\ map fields s
         = map (fun f : Z * Py.value => (fst f, Py.str (snd f), Py.None_))
               (enumerate flags))
  /\ (forall texts : list string,
        exists s w',
          TirConfig.parse_flags (map Py.Str_ texts) w = (Py.Ok s, w')
          /\ map fields s
             = map (fun f : Z * string => (fst f, snd f, Py.None_))
                   (enumerate texts))
  /\ (forall (position : Z) (id : Py.value),
        exists f w',
          iree_cl.from_sequence [Py.Int_ position; id] w = (Py.Ok f, w')
          /\ fields f = (position, Py.str id, Py.None_))
  /\ (forall (position : Z) (id value : Py.value),
        exists f w',
          iree_cl.from_sequence [Py.Int_ position; id; value] w = (Py.Ok f, w')
          /\ fields f = (position, Py.str id, value))
  /\ (forall a : Py.value,
        iree_cl.from_sequence [a] w
        = (Py.Raise (Py.ValueError
             "Unable to create iree_cl from 1 only pair and triplet are supported."),
           w))
  /\ (forall a b c d : Py.value,
        iree_cl.from_sequence [a; b; c; d] w
        = (Py.Raise (Py.ValueError
             "Unable to create iree_cl from 4 only pair and triplet are supported."),
           w))
  /\ (forall parts : list Py.value,
        match parts with
        | [_; _] | [_; _; _] => True
        | _ =>
            iree_cl.from_sequence parts w
            = (Py.Raise (Py.ValueError
                 ("Unable to create iree_cl from "
                  ++ Py.str_of_int (Z.of_nat (List.length parts))
                  ++ " only pair and triplet are supported.")),
               w)
        end).
Proof.
  split; [|split; [|split; [|split; [|split; [|split]]]]].
  - exists (parsed 0 (next_oid w) flags).
    split; [apply parse_flags_run|].
    split; [apply parsed_length | apply parsed_fields].
  - intros texts. rewrite parse_flags_run. do 2 eexists.
    split; [reflexivity|].
    rewrite parsed_fields. unfold enumerate. generalize 0%Z.
    induction texts as [|x texts IH]; intros start; simpl.
    + reflexivity.
    + now rewrite IH.
  - intros position id. do 2 eexists. split; reflexivity.
  - intros position id value. do 2 eexists. split; reflexivity.
  - reflexivity.
  - reflexivity.
  - intros [|a [|b [|c [|d parts]]]]; trivial; reflexivity.
Qed.

(** C4 as stated fails: a pair (identifier, value) and a triplet given as
    entries become flags whose identifier is the text of the whole tuple and
    which have no value. *)
Lemma parse_flags_tuple_entries :
  exists s w',
    TirConfig.parse_flags
      [Py.Tuple_ [Py.Str_ "--foo"; Py.Str_ "bar"];
       Py.Tuple_ [Py.Int_ 7; Py.Str_ "--foo"; Py.Str_ "bar"]] world0
    = (Py.Ok s, w')
    /\ map fields s
       = [(0%Z, "('--foo', 'bar')", Py.None_);
          (1%Z, "(7, '--foo', 'bar')", Py.None_)].
Proof. do 2 eexists. split; reflexivity. Qed.

(** C1 on the code: two calls of [with_cpu_target] leave two flags with the
    identifier --iree-llvm-target-cpu-features in the set, and both are
    rendered. *)
Lemma same_identifier_twice_keeps_both :
  exists self w',
    TirConfig.build None
      [TirConfig.cpu_target (Some "a"); TirConfig.cpu_target (Some "b")] world0
    = (Py.Ok self, w')
    /\ map fields (TirConfig._flags self)
       = [((-1)%Z, "--iree-llvm-target-cpu-features", Py.Str_ "a");
          ((-1)%Z, "--iree-llvm-target-cpu-features", Py.Str_ "b")]
    /\ in_every_iteration_order (fun it =>
         List.length (TirConfig.get_compiler_args it self) = 2%nat).
Proof.
  do 2 eexists. split; [reflexivity|]. split; [reflexivity|].
  intros it Hit. unfold TirConfig.get_compiler_args.
  rewrite length_map.
  rewrite (Permutation_length (sorted_perm iree_cl.position _)).
  now rewrite (Permutation_length (Hit _)).
Qed.

(** C2 on the code: on a configuration on which [with_mlir_ir_output] was
    never called, [save_ir] raises AttributeError, because the constructor
    leaves the slot of the path unassigned. *)
Theorem save_ir_without_output_path
    (flags : option (list Py.value)) (calls : list TirConfig.call)
    (mlir_module : string) (w : world)
    (Hcalls : forallb (fun c => negb (sets_path c)) calls = true) :
  exists self w',
    TirConfig.build flags calls w = (Py.Ok self, w')
    /\ TirConfig.save_ir self mlir_module w'
       = (Py.Raise (Py.AttributeError "_mlir_output_path"), w').
Proof.
  rewrite build_run. cbv zeta. do 2 eexists. split; [reflexivity|].
  unfold TirConfig.save_ir. cbn [TirConfig._mlir_output_path].
  now rewrite path_after_all_unset.
Qed.

Lemma save_ir_without_output_path_witness :
  exists self w',
    TirConfig.build None [] world0 = (Py.Ok self, w')
    /\ TirConfig.save_ir self "module {}" w'
       = (Py.Raise (Py.AttributeError "_mlir_output_path"), w').
Proof.
  apply (save_ir_without_output_path None [] "module {}" world0).
  reflexivity.
Defined.

(** C3 on the code: a parameter registered without an index takes position
    -1 and is rendered before the flag parsed at position 0, in every
    iteration order of the set. *)
Lemma default_index_rendered_before_parsed :
  in_every_iteration_order (fun it =>
    exists self w',
      TirConfig.build (Some [Py.Str_ "--a"])
        [TirConfig.additional_parameters "--b" None None] world0
      = (Py.Ok self, w')
      /\ TirConfig.get_compiler_args it self = ["--b"; "--a"]).
Proof.
  intros it Hit. rewrite build_run. do 2 eexists. split; [reflexivity|].
  unfold TirConfig.get_compiler_args.
  cbn [TirConfig._flags made_by_all made_by parsed default app].
  match goal with |- context [it [?a; ?b]] =>
    destruct (two_orders it a b Hit) as [-> | ->]
  end; reflexivity.
Qed.

(** C5 on the code: a flag whose value is 0, the empty text, False or the
    empty tuple is rendered as its identifier alone. *)
Lemma falsy_value_rendered_without_value :
  iree_cl.__str__ (iree_cl.mk 0 0 "--opt-level" (Py.Int_ 0)) = "--opt-level"
  /\ iree_cl.__str__ (iree_cl.mk 0 0 "--opt-level" (Py.Str_ "")) = "--opt-level"
  /\ iree_cl.__str__ (iree_cl.mk 0 0 "--opt-level" (Py.Bool_ false)) = "--opt-level"
  /\ iree_cl.__str__ (iree_cl.mk 0 0 "--opt-level" (Py.Tuple_ [])) = "--opt-level"
  /\ in_every_iteration_order (fun it =>
       exists self w',
         TirConfig.build None
           [TirConfig.additional_parameters "--opt-level" (Some (Py.Int_ 0)) None]
           world0
         = (Py.Ok self, w')
         /\ TirConfig.get_compiler_args it self = ["--opt-level"]).
Proof.
  repeat split.
  intros it Hit. rewrite build_run. do 2 eexists. split; [reflexivity|].
  unfold TirConfig.get_compiler_args.
  cbn [TirConfig._flags made_by_all made_by parsed default app].
  match goal with |- context [it [?a]] => rewrite (one_order it a Hit) end.
  reflexivity.
Qed.

(** * Further properties of the code *)

Local Open Scope list_scope.

Lemma made_by_length (c : TirConfig.call) (n : nat) :
  List.length (made_by c n) = flags_added c.
Proof. now destruct c. Qed.

Lemma made_by_all_length (calls : list TirConfig.call) :
  forall n,
    List.length (made_by_all calls n) = list_sum (map flags_added calls).
Proof.
  induction calls as [|c calls IH]; simpl; intros n.
  - reflexivity.
  - now rewrite length_app, made_by_length, IH.
Qed.

(** X1. The constructor and every chain of builder calls return a
    configuration and raise nothing, and no call replaces a member of the
    set: it holds one flag per parsed entry, two per [with_debug_flags] and
    one per other flag-adding call. *)
Theorem builder_calls_only_add
    (flags : option (list Py.value)) (calls : list TirConfig.call) (w : world) :
  exists self w',
    TirConfig.build flags calls w = (Py.Ok self, w')
    /\ List.length (TirConfig._flags self)
       = (List.length (default [] flags) + list_sum (map flags_added calls))%nat.
Proof.
  rewrite build_run. cbv zeta. do 2 eexists. split; [reflexivity|].
  cbn [TirConfig._flags].
  now rewrite length_app, parsed_length, made_by_all_length.
Qed.

(** X2. With no flags given and no flag added the rendering is the empty
    list. *)
Theorem rendering_of_no_flags
    (it : PySet.order) (Hit : PySet.iteration_order it) (w : world) :
  (exists self w',
      TirConfig.build None [] w = (Py.Ok self, w')
      /\ TirConfig.get_compiler_args it self = [])
  /\ (exists self w',
         TirConfig.build (Some []) [] w = (Py.Ok self, w')
         /\ TirConfig.get_compiler_args it self = []).
Proof.
  assert (Hnil : it [] = []) by apply Permutation_nil, Permutation_sym, Hit.
  split; rewrite build_run; do 2 eexists; (split; [reflexivity|]);
    unfold TirConfig.get_compiler_args; simpl; now rewrite Hnil.
Qed.

Lemma rendering_of_no_flags_witness :
  (exists self w',
      TirConfig.build None [] world0 = (Py.Ok self, w')
      /\ TirConfig.get_compiler_args PySet.insertion_order self = [])
  /\ (exists self w',
         TirConfig.build (Some []) [] world0 = (Py.Ok self, w')
         /\ TirConfig.get_compiler_args PySet.insertion_order self = []).
Proof.
  apply (rendering_of_no_flags PySet.insertion_order).
  intros s. apply Permutation_refl.
Defined.

(** X3. The rendering lists every flag of the set once, by ascending
    position. *)
Theorem rendering_sorted_by_position
    (it : PySet.order) (Hit : PySet.iteration_order it) (self : TirConfig.t) :
  exists l : list iree_cl.t,
    Permutation l (TirConfig._flags self)
    /\ StronglySorted (key_le iree_cl.position) l
    /\ TirConfig.get_compiler_args it self = map iree_cl.__str__ l.
Proof. now apply rendering_ascending. Qed.

Lemma rendering_sorted_by_position_witness :
  exists l : list iree_cl.t,
    Permutation l [iree_cl.mk 0 5 "--b" Py.None_; iree_cl.mk 1 (-1) "--a" (Py.Int_ 2)]
    /\ StronglySorted (key_le iree_cl.position) l
    /\ TirConfig.get_compiler_args PySet.insertion_order
         (TirConfig.mk
            [iree_cl.mk 0 5 "--b" Py.None_; iree_cl.mk 1 (-1) "--a" (Py.Int_ 2)]
            None)
       = map iree_cl.__str__ l.
Proof.
  apply (rendering_sorted_by_position PySet.insertion_order
           (fun s => Permutation_refl s)
           (TirConfig.mk
              [iree_cl.mk 0 5 "--b" Py.None_; iree_cl.mk 1 (-1) "--a" (Py.Int_ 2)]
              None)).
Defined.

(** X4. A flag with the value None is rendered as its identifier; a flag
    whose value is a text that is not empty, or an integer other than 0, is
    rendered as identifier=value. *)
Theorem str_of_flag
    (o : nat) (position : Z) (id text : string) (z : Z)
    (Htext : text <> ""%string) (Hz : z <> 0) :
  iree_cl.__str__ (iree_cl.mk o position id Py.None_) = id
  /\ iree_cl.__str__ (iree_cl.mk o position id (Py.Str_ text))
     = (id ++ "=" ++ text)%string
  /\ iree_cl.__str__ (iree_cl.mk o position id (Py.Int_ z))
     = (id ++ "=" ++ Py.str_of_int z)%string.
Proof.
  unfold iree_cl.__str__; simpl. repeat split.
  - destruct (String.eqb_spec text ""); [contradiction | reflexivity].
  - destruct (Z.eqb_spec z 0); [contradiction | reflexivity].
Qed.

Lemma str_of_flag_witness :
  iree_cl.__str__ (iree_cl.mk 0 3 "--opt" Py.None_) = "--opt"%string
  /\ iree_cl.__str__ (iree_cl.mk 0 3 "--opt" (Py.Str_ "fast"))
     = ("--opt" ++ "=" ++ "fast")%string
  /\ iree_cl.__str__ (iree_cl.mk 0 3 "--opt" (Py.Int_ (-2)))
     = ("--opt" ++ "=" ++ Py.str_of_int (-2))%string.
Proof.
  apply (str_of_flag 0 3 "--opt" "fast" (-2)).
  - discriminate.
  - lia.
Defined.

(** X5. After [with_mlir_ir_output] with a path that is not empty and that
    can be opened for writing, [save_ir] raises nothing, leaves exactly the
    given text in the file at that path and leaves every other file as it
    was. *)
Theorem save_ir_writes_text
    (self : TirConfig.t) (path mlir_module : string) (w : world)
    (Hpath : path <> ""%string) (Hopen : writable w path = true) :
  exists self' w1 w2,
    TirConfig.with_mlir_ir_output self path w = (Py.Ok self', w1)
    /\ TirConfig.save_ir self' mlir_module w1 = (Py.Ok tt, w2)
    /\ files w2 path = Some mlir_module
    /\ (forall p : string, p <> path -> files w2 p = files w p)
    /\ TirConfig._flags self' = TirConfig._flags self.
Proof.
  unfold TirConfig.with_mlir_ir_output, ret.
  do 3 eexists. split; [reflexivity|].
  unfold TirConfig.save_ir, write_file. simpl.
  destruct (String.eqb_spec path ""); [contradiction|]. simpl.
  rewrite Hopen. split; [reflexivity|]. simpl.
  rewrite String.eqb_refl. split; [reflexivity|]. split; [|reflexivity].
  intros p Hp. now destruct (String.eqb_spec p path).
Qed.

Lemma save_ir_writes_text_witness :
  exists self' w1 w2,
    TirConfig.with_mlir_ir_output (TirConfig.mk [] None) "out.mlir" world0
    = (Py.Ok self', w1)
    /\ TirConfig.save_ir self' "module {}" w1 = (Py.Ok tt, w2)
    /\ files w2 "out.mlir"%string = Some "module {}"%string
    /\ (forall p : string, p <> "out.mlir"%string -> files w2 p = files world0 p)
    /\ TirConfig._flags self' = TirConfig._flags (TirConfig.mk [] None).
Proof.
  apply (save_ir_writes_text (TirConfig.mk [] None) "out.mlir" "module {}" world0).
  - discriminate.
  - reflexivity.
Defined.

(** X6. A new object is never found in a set of older objects, by the
    comparison of objects and by the lookup of the hash table alike, so
    [add] appends it even when its identifier is already there. *)
Theorem add_keeps_same_identifier
    (str_hash : string -> Z) (n : nat) (s : PySet.t)
    (position : Z) (id : string) (value : Py.value)
    (Hs : created_before n s) :
  PySet.lookup str_hash (iree_cl.mk n position id value) s = false
  /\ PySet.add (iree_cl.mk n position id value) s
     = s ++ [iree_cl.mk n position id value].
Proof.
  split.
  - now apply (lookup_new str_hash n).
  - now apply (add_new n).
Qed.

Lemma add_keeps_same_identifier_witness :
  PySet.lookup (fun _ => 0) (iree_cl.mk 1 (-1) "--x" (Py.Int_ 2))
    [iree_cl.mk 0 (-1) "--x" (Py.Int_ 1)] = false
  /\ PySet.add (iree_cl.mk 1 (-1) "--x" (Py.Int_ 2))
       [iree_cl.mk 0 (-1) "--x" (Py.Int_ 1)]
     = [iree_cl.mk 0 (-1) "--x" (Py.Int_ 1)]
       ++ [iree_cl.mk 1 (-1) "--x" (Py.Int_ 2)].
Proof.
  apply (add_keeps_same_identifier (fun _ => 0) 1).
  repeat constructor.
Defined.

(** * Order of the rendering *)

Local Open Scope Z_scope.

Section SortedOrder.
Context {A : Type} (key : A -> Z).

(** A sorted list is its elements below [m] followed by the others. *)
Lemma sorted_split (m : Z) (l : list A) :
  StronglySorted (key_le key) l ->
  l = filter (fun x => key x <? m) l ++ filter (fun x => m <=? key x) l.
Proof.
  induction 1 as [|x l Hl IH Hx]; simpl.
  - reflexivity.
  - destruct (Z.ltb_spec (key x) m) as [Hlt|Hge].
    + replace (m <=? key x) with false by (symmetry; apply Z.leb_gt; lia).
      simpl. now f_equal.
    + replace (m <=? key x) with true by (symmetry; apply Z.leb_le; lia).
      assert (Hl' : filter (fun y => key y <? m) l = []
                    /\ filter (fun y => m <=? key y) l = l).
      { clear IH Hl. induction Hx as [|y l Hy _ [IH1 IH2]]; simpl.
        - now split.
        - unfold key_le in Hy.
          replace (key y <? m) with false by (symmetry; apply Z.ltb_ge; lia).
          replace (m <=? key y) with true by (symmetry; apply Z.leb_le; lia).
          split; congruence. }
      destruct Hl' as [-> ->]. reflexivity.
Qed.

Lemma filter_sorted (p : A -> bool) (l : list A) :
  StronglySorted (key_le key) l -> StronglySorted (key_le key) (filter p l).
Proof.
  induction 1 as [|x l Hl IH Hx]; simpl.
  - constructor.
  - destruct (p x); [|exact IH].
    constructor; [exact IH|].
    apply Forall_forall. intros y Hy. apply filter_In in Hy as [Hy _].
    eapply Forall_forall in Hx; eassumption.
Qed.

(** Two sorted arrangements of elements with distinct keys are equal. *)
Lemma sorted_unique (l1 : list A) :
  forall l2 : list A,
    StronglySorted (key_le key) l1 ->
    StronglySorted (key_le key) l2 ->
    Permutation l1 l2 ->
    NoDup (map key l1) ->
    l1 = l2.
Proof.
  induction l1 as [|x l1 IH]; intros l2 H1 H2 HP Hnd.
  - now apply Permutation_nil in HP.
  - destruct l2 as [|y l2].
    { apply Permutation_sym, Permutation_nil in HP. discriminate. }
    apply StronglySorted_inv in H1 as [H1 Hx].
    apply StronglySorted_inv in H2 as [H2 Hy].
    inversion Hnd as [|? ? Hnotin Hnd']; subst.
    assert (Hxy : x = y).
    { assert (Hx2 : In x (y :: l2))
        by (eapply Permutation_in; [exact HP | now left]).
      assert (Hy1 : In y (x :: l1))
        by (eapply Permutation_in; [apply Permutation_sym, HP | now left]).
      destruct Hy1 as [Hy1|Hy1]; [exact Hy1|].
      destruct Hx2 as [Hx2|Hx2]; [now symmetry|].
      exfalso. apply Hnotin.
      eapply Forall_forall in Hx; [|exact Hy1].
      eapply Forall_forall in Hy; [|exact Hx2].
      unfold key_le in Hx, Hy.
      replace (key x) with (key y) by lia.
      now apply in_map. }
    subst y. f_equal.
    apply IH; try assumption.
    now apply Permutation_cons_inv in HP.
Qed.
End SortedOrder.

Lemma parsed_sorted (fl : list Py.value) :
  forall start n,
    StronglySorted (key_le iree_cl.position) (parsed start n fl).
Proof.
  induction fl as [|x fl IH]; simpl; intros start n.
  - constructor.
  - constructor; [apply IH|].
    eapply Forall_impl; [|apply (parsed_positions fl (start + 1) (S n))].
    unfold key_le. simpl. intros f Hf. lia.
Qed.

Lemma parsed_distinct (fl : list Py.value) :
  forall start n, NoDup (map iree_cl.position (parsed start n fl)).
Proof.
  induction fl as [|x fl IH]; simpl; intros start n.
  - constructor.
  - constructor; [|apply IH].
    intros Hin. apply in_map_iff in Hin as (f & Hf & Hin).
    pose proof (parsed_positions fl (start + 1) (S n)) as Hpos.
    eapply Forall_forall in Hpos; [|exact Hin]. simpl in Hpos. lia.
Qed.

Lemma parsed_str (fl : list Py.value) :
  forall start n, map iree_cl.__str__ (parsed start n fl) = map Py.str fl.
Proof.
  induction fl as [|x fl IH]; simpl; intros start n.
  - reflexivity.
  - now rewrite IH.
Qed.

Lemma negative_index_positions (calls : list TirConfig.call) :
  forallb negative_index calls = true ->
  forall n, Forall (fun f => iree_cl.position f < 0) (made_by_all calls n).
Proof.
  induction calls as [|c calls IH]; simpl; intros H n.
  - constructor.
  - apply andb_true_iff in H as [Hc H].
    apply Forall_app. split; [|now apply IH].
    destruct c; simpl in *; repeat constructor; simpl; lia.
Qed.

Lemma index_below_positions (m : Z) (calls : list TirConfig.call) :
  0 <= m ->
  forallb (index_below m) calls = true ->
  forall n, Forall (fun f => iree_cl.position f < m) (made_by_all calls n).
Proof.
  intros Hm. induction calls as [|c calls IH]; simpl; intros H n.
  - constructor.
  - apply andb_true_iff in H as [Hc H].
    apply Forall_app. split; [|now apply IH].
    destruct c; simpl in *; repeat constructor; simpl; lia.
Qed.

Lemma parsed_below (fl : list Py.value) :
  forall start n,
    Forall (fun f => iree_cl.position f < start + Z.of_nat (List.length fl))
           (parsed start n fl).
Proof.
  induction fl as [|x fl IH]; intros start n.
  - constructor.
  - cbn [parsed List.length]. constructor; [simpl; lia|].
    eapply Forall_impl; [|apply (IH (start + 1) (S n))].
    simpl. intros f Hf. lia.
Qed.

Lemma filter_all {A : Type} (p : A -> bool) (l : list A) :
  Forall (fun x => p x = true) l -> filter p l = l.
Proof.
  induction 1 as [|x l Hx _ IH]; simpl; [reflexivity|].
  now rewrite Hx, IH.
Qed.

Lemma filter_none {A : Type} (p : A -> bool) (l : list A) :
  Forall (fun x => p x = false) l -> filter p l = [].
Proof.
  induction 1 as [|x l Hx _ IH]; simpl; [reflexivity|].
  now rewrite Hx.
Qed.

Lemma str_ignores_identity (o o' : nat) (position : Z) (id : string) (v : Py.value) :
  iree_cl.__str__ (iree_cl.mk o position id v)
  = iree_cl.__str__ (iree_cl.mk o' position id v).
Proof. reflexivity. Qed.

Lemma path_after_all_kept (calls : list TirConfig.call) :
  forall path : option string,
    forallb (fun c => negb (sets_path c)) calls = true ->
    path_after_all calls path = path.
Proof.
  unfold path_after_all.
  induction calls as [|c calls IH]; simpl; intros path H.
  - reflexivity.
  - apply andb_true_iff in H as [Hc H].
    destruct c; simpl in *; try discriminate; now apply IH.
Qed.

(** X7. When the flags of a configuration sit at pairwise distinct
    positions, the rendering is the same in every iteration order of the
    set. *)
Theorem rendering_independent_of_iteration_order
    (it1 it2 : PySet.order)
    (H1 : PySet.iteration_order it1) (H2 : PySet.iteration_order it2)
    (self : TirConfig.t)
    (Hdistinct : NoDup (map iree_cl.position (TirConfig._flags self))) :
  TirConfig.get_compiler_args it1 self = TirConfig.get_compiler_args it2 self.
Proof.
  unfold TirConfig.get_compiler_args. f_equal.
  assert (P1 : Permutation (Py.sorted iree_cl.position (it1 (TirConfig._flags self)))
                           (TirConfig._flags self))
    by (rewrite sorted_perm; apply H1).
  assert (P2 : Permutation (Py.sorted iree_cl.position (it2 (TirConfig._flags self)))
                           (TirConfig._flags self))
    by (rewrite sorted_perm; apply H2).
  apply (sorted_unique iree_cl.position); try apply sorted_sorted.
  - now rewrite P1, P2.
  - eapply Permutation_NoDup; [|exact Hdistinct].
    apply Permutation_map, Permutation_sym, P1.
Qed.

Lemma rendering_independent_of_iteration_order_witness :
  TirConfig.get_compiler_args PySet.insertion_order
    (TirConfig.mk [iree_cl.mk 0 4 "--b" Py.None_; iree_cl.mk 1 2 "--a" Py.None_] None)
  = TirConfig.get_compiler_args (fun s => rev s)
      (TirConfig.mk [iree_cl.mk 0 4 "--b" Py.None_; iree_cl.mk 1 2 "--a" Py.None_] None).
Proof.
  apply (rendering_independent_of_iteration_order
           PySet.insertion_order (fun s => rev s)
           (fun s => Permutation_refl s)
           (fun s => Permutation_sym (Permutation_rev s))).
  simpl. repeat constructor; simpl; intuition discriminate.
Defined.

(** X8. Builder calls whose flags sit at negative positions (all of them,
    unless a parameter is registered with an index of 0 or more) never
    reorder the flags given to the constructor: the rendering ends with the
    texts of the entries of the list, in the order of the list, after one
    argument per flag added.  With no call at all the rendering is the list
    of the texts of the entries. *)
Theorem parsed_flags_rendered_last
    (it : PySet.order) (Hit : PySet.iteration_order it)
    (flags : option (list Py.value)) (calls : list TirConfig.call) (w : world)
    (Hcalls : forallb negative_index calls = true) :
  exists self w' front,
    TirConfig.build flags calls w = (Py.Ok self, w')
    /\ TirConfig.get_compiler_args it self
       = front ++ map Py.str (default [] flags)
    /\ List.length front = list_sum (map flags_added calls).
Proof.
  rewrite build_run. cbv zeta.
  set (fl := default [] flags).
  set (made := made_by_all calls (List.length fl + next_oid w)).
  set (L := parsed 0 (next_oid w) fl ++ made).
  set (S := Py.sorted iree_cl.position (it L)).
  assert (HS : Permutation S L) by (unfold S; rewrite sorted_perm; apply Hit).
  pose proof (negative_index_positions calls Hcalls
                (List.length fl + next_oid w)%nat) as Hmade.
  fold made in Hmade.
  assert (Hhigh : filter (fun f => 0 <=? iree_cl.position f) L
                  = parsed 0 (next_oid w) fl).
  { unfold L. rewrite filter_app, filter_all, filter_none.
    - apply app_nil_r.
    - eapply Forall_impl; [|exact Hmade]. simpl. intros f Hf.
      apply Z.leb_gt. exact Hf.
    - eapply Forall_impl; [|apply parsed_positions]. simpl. intros f Hf.
      apply Z.leb_le. exact Hf. }
  assert (Hlow : filter (fun f => iree_cl.position f <? 0) L = made).
  { unfold L. rewrite filter_app, filter_none, filter_all.
    - reflexivity.
    - eapply Forall_impl; [|exact Hmade]. simpl. intros f Hf.
      apply Z.ltb_lt. exact Hf.
    - eapply Forall_impl; [|apply parsed_positions]. simpl. intros f Hf.
      apply Z.ltb_ge. exact Hf. }
  assert (Hlast : filter (fun f => 0 <=? iree_cl.position f) S
                  = parsed 0 (next_oid w) fl).
  { apply (sorted_unique iree_cl.position).
    - apply filter_sorted, sorted_sorted.
    - apply parsed_sorted.
    - rewrite <- Hhigh. now apply filter_perm.
    - eapply Permutation_NoDup; [|apply (parsed_distinct fl 0 (next_oid w))].
      apply Permutation_map. rewrite <- Hhigh.
      apply Permutation_sym. now apply filter_perm. }
  eexists _, _, (map iree_cl.__str__ (filter (fun f => iree_cl.position f <? 0) S)).
  split; [reflexivity|]. split.
  - unfold TirConfig.get_compiler_args. cbn [TirConfig._flags]. fold L S.
    rewrite <- (parsed_str fl 0 (next_oid w)), <- Hlast, <- map_app.
    f_equal. apply sorted_split, sorted_sorted.
  - rewrite length_map.
    rewrite (Permutation_length (filter_perm _ _ _ HS)), Hlow.
    apply made_by_all_length.
Qed.

Lemma parsed_flags_rendered_last_witness :
  exists self w' front,
    TirConfig.build (Some [Py.Str_ "--a"; Py.Str_ "--b=1"])
      [TirConfig.cpu_target None; TirConfig.debug_flags] world0
    = (Py.Ok self, w')
    /\ TirConfig.get_compiler_args PySet.insertion_order self
       = front ++ map Py.str (default [] (Some [Py.Str_ "--a"; Py.Str_ "--b=1"]))
    /\ List.length front
       = list_sum (map flags_added [TirConfig.cpu_target None; TirConfig.debug_flags]).
Proof.
  apply (parsed_flags_rendered_last PySet.insertion_order
           (fun s => Permutation_refl s)).
  reflexivity.
Defined.

(** X9. A parameter registered with an explicit index that is at least the
    number of entries given to the constructor and above the index of every
    parameter registered before is rendered last, after one argument per
    flag already in the configuration. *)
Theorem registered_above_all_rendered_last
    (it : PySet.order) (Hit : PySet.iteration_order it)
    (flags : option (list Py.value)) (calls : list TirConfig.call)
    (name : string) (value : option Py.value) (index : Z) (w : world)
    (Hflags : Z.of_nat (List.length (default [] flags)) <= index)
    (Hcalls : forallb (index_below index) calls = true) :
  exists self w' front,
    TirConfig.build flags
      (calls ++ [TirConfig.additional_parameters name value (Some index)]) w
    = (Py.Ok self, w')
    /\ TirConfig.get_compiler_args it self
       = front ++ [iree_cl.__str__
                     (iree_cl.mk 0 index name (default Py.None_ value))]
    /\ List.length front
       = (List.length (default [] flags) + list_sum (map flags_added calls))%nat.
Proof.
  rewrite build_run. cbv zeta.
  set (fl := default [] flags) in *.
  rewrite made_by_all_app.
  set (n := (List.length fl + next_oid w)%nat).
  set (made := made_by_all calls n).
  cbn [made_by_all made_by default app].
  set (x := iree_cl.mk (List.length made + n) index name (default Py.None_ value)).
  set (L := parsed 0 (next_oid w) fl ++ made ++ [x]).
  set (S := Py.sorted iree_cl.position (it L)).
  assert (HS : Permutation S L) by (unfold S; rewrite sorted_perm; apply Hit).
  assert (Hold : Forall (fun f => iree_cl.position f < index)
                        (parsed 0 (next_oid w) fl ++ made)).
  { apply Forall_app. split.
    - eapply Forall_impl; [|apply parsed_below]. simpl. intros f Hf. lia.
    - apply index_below_positions; [lia | exact Hcalls]. }
  assert (Hhigh : filter (fun f => index <=? iree_cl.position f) L = [x]).
  { unfold L. rewrite app_assoc, filter_app, filter_none.
    - simpl. now rewrite Z.leb_refl.
    - eapply Forall_impl; [|exact Hold]. simpl. intros f Hf.
      apply Z.leb_gt. exact Hf. }
  assert (Hlow : filter (fun f => iree_cl.position f <? index) L
                 = parsed 0 (next_oid w) fl ++ made).
  { unfold L. rewrite app_assoc, filter_app, filter_all.
    - simpl. rewrite Z.ltb_irrefl. apply app_nil_r.
    - eapply Forall_impl; [|exact Hold]. simpl. intros f Hf.
      apply Z.ltb_lt. exact Hf. }
  assert (Hlast : filter (fun f => index <=? iree_cl.position f) S = [x]).
  { apply Permutation_length_1_inv. rewrite <- Hhigh.
    apply Permutation_sym. now apply filter_perm. }
  eexists _, _,
    (map iree_cl.__str__ (filter (fun f => iree_cl.position f <? index) S)).
  split; [reflexivity|]. split.
  - unfold TirConfig.get_compiler_args. cbn [TirConfig._flags]. fold L S.
    rewrite (str_ignores_identity 0 (List.length made + n)). fold x.
    change [iree_cl.__str__ x] with (map iree_cl.__str__ [x]).
    rewrite <- Hlast, <- map_app.
    f_equal. apply sorted_split, sorted_sorted.
  - rewrite length_map.
    rewrite (Permutation_length (filter_perm _ _ _ HS)), Hlow.
    rewrite length_app, parsed_length. unfold made.
    now rewrite made_by_all_length.
Qed.

Lemma registered_above_all_rendered_last_witness :
  exists self w' front,
    TirConfig.build (Some [Py.Str_ "--a"])
      ([TirConfig.cpu_target None]
       ++ [TirConfig.additional_parameters "--z" (Some (Py.Int_ 3)) (Some 1)])
      world0
    = (Py.Ok self, w')
    /\ TirConfig.get_compiler_args PySet.insertion_order self
       = front ++ [iree_cl.__str__
                     (iree_cl.mk 0 1 "--z" (default Py.None_ (Some (Py.Int_ 3))))]
    /\ List.length front
       = (List.length (default [] (Some [Py.Str_ "--a"]))
          + list_sum (map flags_added [TirConfig.cpu_target None]))%nat.
Proof.
  apply (registered_above_all_rendered_last PySet.insertion_order
           (fun s => Permutation_refl s)
           (Some [Py.Str_ "--a"]) [TirConfig.cpu_target None]
           "--z" (Some (Py.Int_ 3)) 1 world0).
  - simpl. lia.
  - reflexivity.
Defined.

(** * Effects of the calls *)

(** X10. [from_sequence] succeeds exactly on a pair or a triplet whose first
    part [int] accepts.  On success it creates one object, whose position is
    that integer, whose identifier is the text of the second part and whose
    value is the third part or None; when it raises, nothing was created.
    It never touches a file. *)
Theorem from_sequence_effects (parts : list Py.value) (w : world) :
  match iree_cl.from_sequence parts w with
  | (Py.Ok f, w') =>
      w' = advance 1 w
      /\ iree_cl.oid f = next_oid w
      /\ exists p i,
           Py.int p = Py.Ok (iree_cl.position f)
           /\ iree_cl.id f = Py.str i
           /\ (parts = [p; i] /\ iree_cl.value f = Py.None_
               \/ parts = [p; i; iree_cl.value f])
  | (Py.Raise e, w') =>
      w' = w
      /\ (match parts with
          | [p; _] | [p; _; _] => Py.int p = Py.Raise e
          | _ => exists msg, e = Py.ValueError msg
          end)
  end.
Proof.
  destruct parts as [|p [|i [|v [|x parts]]]]; simpl;
    try (split; [reflexivity | eexists; reflexivity]).
  - unfold bind, lift. destruct (Py.int p) as [z|e] eqn:Hp; simpl.
    + repeat split. exists p, i. repeat split; auto.
    + now split.
  - unfold bind, lift. destruct (Py.int p) as [z|e] eqn:Hp; simpl.
    + repeat split. exists p, i. repeat split; auto.
    + now split.
Qed.

Example from_sequence_long_bad_position :
  match iree_cl.from_sequence
          [Py.Str_ (string_of_list_ascii (repeat "x"%char 201)); Py.Str_ "--x"]
          world0 with
  | (Py.Raise (Py.ValueError msg), w') =>
      w' = world0
      /\ String.length msg = 240%nat
      /\ String.substring 0 40 msg
         = "invalid literal for int() with base 10: "%string
  | _ => False
  end.
Proof. repeat split. Qed.

(** X11. [save_ir] creates no object and changes no file other than the one
    at the output path of the configuration, which then holds the given
    text. *)
Theorem save_ir_frame (self : TirConfig.t) (mlir_module : string) (w : world) :
  next_oid (snd (TirConfig.save_ir self mlir_module w)) = next_oid w
  /\ forall p : string,
       files (snd (TirConfig.save_ir self mlir_module w)) p = files w p
       \/ (TirConfig._mlir_output_path self = Some p
           /\ fst (TirConfig.save_ir self mlir_module w) = Py.Ok tt
           /\ files (snd (TirConfig.save_ir self mlir_module w)) p
              = Some mlir_module).
Proof.
  unfold TirConfig.save_ir.
  destruct (TirConfig._mlir_output_path self) as [path|]; simpl.
  - destruct (negb (String.eqb path "")); simpl.
    + unfold write_file. destruct (writable w path); simpl.
      * split; [reflexivity|]. intros p.
        destruct (String.eqb_spec p path) as [->|Hp]; [right | left]; auto.
      * split; [reflexivity | now left].
    + split; [reflexivity | now left].
  - split; [reflexivity | now left].
Qed.

(** X12. The output path is the one of the last [with_mlir_ir_output] of a
    chain of builder calls: when that path is not empty and can be opened for
    writing, [save_ir] leaves the given text there and leaves every other
    file, also a path set by an earlier call, as it was. *)
Theorem last_output_path_wins
    (flags : option (list Py.value)) (calls1 calls2 : list TirConfig.call)
    (path mlir_module : string) (w : world)
    (Hcalls2 : forallb (fun c => negb (sets_path c)) calls2 = true)
    (Hpath : path <> ""%string) (Hopen : writable w path = true) :
  exists self w1 w2,
    TirConfig.build flags (calls1 ++ TirConfig.mlir_ir_output path :: calls2) w
    = (Py.Ok self, w1)
    /\ TirConfig.save_ir self mlir_module w1 = (Py.Ok tt, w2)
    /\ files w2 path = Some mlir_module
    /\ forall p : string, p <> path -> files w2 p = files w p.
Proof.
  rewrite build_run. cbv zeta. do 3 eexists. split; [reflexivity|].
  unfold TirConfig.save_ir. cbn [TirConfig._mlir_output_path].
  unfold path_after_all. rewrite fold_left_app. cbn [fold_left path_after].
  fold (path_after_all calls2 (Some path)).
  rewrite (path_after_all_kept calls2 (Some path) Hcalls2).
  simpl. destruct (String.eqb_spec path ""); [contradiction|]. simpl.
  unfold write_file. cbn [writable advance]. rewrite Hopen.
  split; [reflexivity|]. simpl. rewrite String.eqb_refl.
  split; [reflexivity|].
  intros p Hp. now destruct (String.eqb_spec p path).
Qed.

Lemma last_output_path_wins_witness :
  exists self w1 w2,
    TirConfig.build None
      ([TirConfig.mlir_ir_output "old.mlir"]
       ++ TirConfig.mlir_ir_output "new.mlir" :: [TirConfig.cpu_target None])
      world0
    = (Py.Ok self, w1)
    /\ TirConfig.save_ir self "module {}" w1 = (Py.Ok tt, w2)
    /\ files w2 "new.mlir"%string = Some "module {}"%string
    /\ forall p : string, p <> "new.mlir"%string -> files w2 p = files world0 p.
Proof.
  apply (last_output_path_wins None [TirConfig.mlir_ir_output "old.mlir"]
           [TirConfig.cpu_target None] "new.mlir" "module {}" world0).
  - reflexivity.
  - discriminate.
  - reflexivity.
Defined.

Lemma without_char_absent (c : ascii) (s : string) :
  Py.contains_char c (without_char c s) = false.
Proof.
  unfold Py.contains_char.
  induction s as [|a s IH]; simpl.
  - reflexivity.
  - destruct (Ascii.eqb_spec a c) as [->|Hac]; [exact IH|].
    simpl. rewrite IH, orb_false_r.
    apply Ascii.eqb_neq. congruence.
Qed.

(** X13. The value [with_gpu_target] gives its flag is sm_ followed by a text
    that holds no dot, and two capability texts that differ only in their
    dots give the same rendering. *)
Theorem with_gpu_target_ignores_dots
    (it : PySet.order) (Hit : PySet.iteration_order it)
    (target_sm target_sm' : string) (w : world)
    (Hsame : without_char "."%char target_sm = without_char "."%char target_sm') :
  exists self self' w' arch,
    TirConfig.build None [TirConfig.gpu_target target_sm] w = (Py.Ok self, w')
    /\ TirConfig.build None [TirConfig.gpu_target target_sm'] w = (Py.Ok self', w')
    /\ TirConfig.get_compiler_args it self
       = [("--iree-hal-cuda-llvm-target-arch=sm_" ++ arch)%string]
    /\ TirConfig.get_compiler_args it self' = TirConfig.get_compiler_args it self
    /\ Py.contains_char "."%char arch = false.
Proof.
  rewrite !build_run. cbv zeta.
  do 3 eexists. exists (without_char "."%char target_sm).
  split; [reflexivity|]. split; [reflexivity|].
  unfold TirConfig.get_compiler_args.
  cbn [TirConfig._flags made_by_all made_by parsed default app List.length].
  rewrite !replace_dot, <- Hsame, (one_order it _ Hit).
  split; [reflexivity|]. split; [reflexivity|].
  apply without_char_absent.
Qed.

Lemma with_gpu_target_ignores_dots_witness :
  exists self self' w' arch,
    TirConfig.build None [TirConfig.gpu_target "8.6"] world0 = (Py.Ok self, w')
    /\ TirConfig.build None [TirConfig.gpu_target "86"] world0 = (Py.Ok self', w')
    /\ TirConfig.get_compiler_args PySet.insertion_order self
       = [("--iree-hal-cuda-llvm-target-arch=sm_" ++ arch)%string]
    /\ TirConfig.get_compiler_args PySet.insertion_order self'
       = TirConfig.get_compiler_args PySet.insertion_order self
    /\ Py.contains_char "."%char arch = false.
Proof.
  apply (with_gpu_target_ignores_dots PySet.insertion_order
           (fun s => Permutation_refl s) "8.6" "86" world0).
  reflexivity.
Defined.

(** X14. Two targets have the same driver exactly when they are the same
    target or both run on the CPU, and no two targets have the same outcome
    of [to_tf_compiler_value]. *)
Theorem to_driver_equal_iff (py : TirTarget.enum_format) (a b : TirTarget.t) :
  (TirTarget.to_driver a = TirTarget.to_driver b
   <-> a = b \/ (is_cpu a = true /\ is_cpu b = true))
  /\ (TirTarget.to_tf_compiler_value py a = TirTarget.to_tf_compiler_value py b
      <-> a = b).
Proof.
  split; split.
  - destruct a, b; simpl; intros H; try discriminate H; auto.
  - intros [->|[Ha Hb]]; [reflexivity|].
    destruct a, b; simpl in *; try discriminate; reflexivity.
  - destruct py, a, b; cbn; intros H; try reflexivity; discriminate H.
  - now intros ->.
Qed.

(** * The configuration store *)

Section Store.
Context {toml : Type}.
Variable hf_hub_url : string -> string -> string -> string.
Variable cached_download : string -> string -> M (option string).
Variable user_agent : string.
Variable load_toml : string -> Py.result (string -> option toml).
Variable Path : string -> string.

(** X15. [from_file] changes nothing in the world, and it returns a store
    exactly when the path holds a file whose text the TOML reader accepts;
    the store then keeps the repository id and answers every key as the
    document does, a missing key included. *)
Theorem from_file_lookup (filepath repo_id : string) (w : world) :
  snd (TirConfigStore.from_file load_toml filepath repo_id w) = w
  /\ ((exists store,
          fst (TirConfigStore.from_file load_toml filepath repo_id w) = Py.Ok store)
      <-> (exists text document,
              files w filepath = Some text /\ load_toml text = Py.Ok document))
  /\ match fst (TirConfigStore.from_file load_toml filepath repo_id w),
           files w filepath with
     | Py.Ok store, Some text =>
         TirConfigStore._repo_id store = repo_id
         /\ exists document,
              load_toml text = Py.Ok document
              /\ forall item : string,
                   TirConfigStore.__getitem__ store item = document item
     | Py.Ok _, None => False
     | Py.Raise e, Some text => load_toml text = Py.Raise e
     | Py.Raise e, None => e = Py.OSError filepath
     end.
Proof.
  unfold TirConfigStore.from_file, read_file, bind, lift, ret.
  destruct (files w filepath) as [text|]; simpl.
  - destruct (load_toml text) as [document|e] eqn:Hd; simpl.
    + split; [reflexivity|]. split.
      * split; intros _; [exists text, document; now split | eauto].
      * split; [reflexivity|]. exists document. now split.
    + split; [reflexivity|]. split; [|reflexivity].
      split; [intros [store H]; discriminate H|].
      intros (t & d & Ht & Hd'). inversion Ht; subst. congruence.
  - split; [reflexivity|]. split; [|reflexivity].
    split; [intros [store H]; discriminate H
           | intros (t & d & Ht & _); discriminate Ht].
Qed.

(** X16. When the download returns a local path that holds a file the TOML
    reader accepts, [from_hub] returns a store for the repository id it was
    given, which answers every key as the downloaded document does; the
    address asked for is the one of the file name (tir-config.store unless
    given) at the branch (tir unless given). *)
Theorem from_hub_lookup
    (repo_id : string) (filename branch : option string)
    (local text : string) (document : string -> option toml) (w w1 : world)
    (Hdownload :
       cached_download
         (hf_hub_url repo_id (default "tir-config.store"%string filename)
                     (default "tir"%string branch))
         user_agent w
       = (Py.Ok (Some local), w1))
    (Hfile : files w1 (Path local) = Some text)
    (Hparse : load_toml text = Py.Ok document) :
  exists store,
    TirConfigStore.from_hub hf_hub_url cached_download user_agent load_toml Path
      repo_id filename branch w
    = (Py.Ok store, w1)
    /\ TirConfigStore._repo_id store = repo_id
    /\ forall item : string,
         TirConfigStore.__getitem__ store item = document item.
Proof.
  unfold TirConfigStore.from_hub, bind. cbv zeta. rewrite Hdownload.
  unfold TirConfigStore.from_file, read_file, bind, lift, ret.
  rewrite Hfile, Hparse. eexists. split; [reflexivity|]. now split.
Qed.

(** X17. When the download returns no path, [from_hub] raises a ValueError
    that names the file (tir-config.store unless given) and the address asked
    for, reads no file and leaves the world as the download left it. *)
Theorem from_hub_not_found
    (repo_id : string) (filename branch : option string) (w w1 : world)
    (Hdownload :
       cached_download
         (hf_hub_url repo_id (default "tir-config.store"%string filename)
                     (default "tir"%string branch))
         user_agent w
       = (Py.Ok None, w1)) :
  TirConfigStore.from_hub hf_hub_url cached_download user_agent load_toml Path
    repo_id filename branch w
  = (Py.Raise (Py.ValueError
       ("Unable to find " ++ default "tir-config.store" filename ++ " at "
        ++ hf_hub_url repo_id (default "tir-config.store" filename)
             (default "tir" branch)
        ++ "."))%string, w1).
Proof.
  unfold TirConfigStore.from_hub, bind. cbv zeta. now rewrite Hdownload.
Qed.

End Store.

Lemma from_hub_lookup_witness :
  exists store,
    TirConfigStore.from_hub
      (fun repo file rev => ("hub/" ++ repo ++ "/" ++ rev ++ "/" ++ file)%string)
      (fun url agent => ret (Some "cache/store"%string))
      "tir" (fun text => Py.Ok (fun key => if String.eqb key "foo" then Some text else None))
      (fun p => p)
      "org/model" None None
      (mkWorld 0 (fun p => if String.eqb p "cache/store" then Some "doc"%string else None)
               (fun _ => true))
    = (Py.Ok store,
       mkWorld 0 (fun p => if String.eqb p "cache/store" then Some "doc"%string else None)
               (fun _ => true))
    /\ TirConfigStore._repo_id store = "org/model"%string
    /\ forall item : string,
         TirConfigStore.__getitem__ store item
         = (if String.eqb item "foo" then Some "doc"%string else None).
Proof.
  apply (from_hub_lookup
           (fun repo file rev => ("hub/" ++ repo ++ "/" ++ rev ++ "/" ++ file)%string)
           (fun url agent => ret (Some "cache/store"%string))
           "tir"
           (fun text => Py.Ok (fun key => if String.eqb key "foo" then Some text else None))
           (fun p => p)
           "org/model" None None "cache/store" "doc").
  - reflexivity.
  - reflexivity.
  - reflexivity.
Defined.

Lemma from_hub_not_found_witness :
  TirConfigStore.from_hub (toml := string)
    (fun repo file rev => ("hub/" ++ repo ++ "/" ++ rev ++ "/" ++ file)%string)
    (fun url agent => ret None)
    "tir" (fun text => Py.Ok (fun key => None)) (fun p => p)
    "org/model" None None world0
  = (Py.Raise (Py.ValueError
       ("Unable to find " ++ default "tir-config.store" None ++ " at "
        ++ ("hub/" ++ "org/model" ++ "/" ++ default "tir" None ++ "/"
            ++ default "tir-config.store" None)
        ++ "."))%string, world0).
Proof.
  apply (from_hub_not_found (toml := string)
           (fun repo file rev => ("hub/" ++ repo ++ "/" ++ rev ++ "/" ++ file)%string)
           (fun url agent => ret None)
           "tir" (fun text => Py.Ok (fun key => None)) (fun p => p)
           "org/model" None None world0 world0).
  reflexivity.
Defined.

Lemma path_after_all_none (calls : list TirConfig.call) :
  forall path : option string,
    path_after_all calls path = None
    <-> path = None /\ forallb (fun c => negb (sets_path c)) calls = true.
Proof.
  unfold path_after_all.
  induction calls as [|c calls IH]; simpl; intros path.
  - tauto.
  - rewrite IH. destruct c; simpl; try tauto.
    split; [intros [H _]; discriminate H | intros [_ H]; discriminate H].
Qed.

(** X18. The constructor and the builder calls read and write no file, and
    the configuration they return has an output path exactly when
    [with_mlir_ir_output] was among the calls. *)
Theorem builder_calls_touch_no_file
    (flags : option (list Py.value)) (calls : list TirConfig.call) (w : world) :
  exists self w',
    TirConfig.build flags calls w = (Py.Ok self, w')
    /\ files w' = files w
    /\ writable w' = writable w
    /\ (TirConfig._mlir_output_path self = None
        <-> forallb (fun c => negb (sets_path c)) calls = true).
Proof.
  rewrite build_run. cbv zeta. do 2 eexists. split; [reflexivity|].
  split; [reflexivity|]. split; [reflexivity|].
  cbn [TirConfig._mlir_output_path]. rewrite path_after_all_none. tauto.
Qed.
